(** * A shallow embedding of the PDF backend of pyte (rinohtype)

    [src/pyte/backend/pdf/cos.py] (the COS object model and file writer) and
    [src/pyte/backend/pdf/__init__.py] (the backend document, pages, font
    registration and the content-stream canvas).

    Conventions.
    - Python [str] values are Rocq [string]s whose characters are code points
      0..255; Python [bytes] values are Rocq [string]s read as byte strings.
      [.encode('utf_8')] is [utf8] below.
    - Exceptions are the [Raise] case of [result]; code that mutates Python
      objects and then raises is modelled by the mutations that happened
      before the raise where a claim depends on it.
    - Registered (indirect) objects live in the document's [objects] list,
      the registry; a Python handle to a registered object is modelled by its
      identifier, so a mutation through any alias is a mutation of the
      registry entry. *)

From Stdlib Require Import String Ascii List NArith ZArith Bool Lia QArith.
Import ListNotations.
Open Scope string_scope.
Open Scope Z_scope.

(** ** Exceptions *)

Inductive exn : Type :=
| AttributeError
| KeyError
| TypeError
| AssertionError
| IndexError
| ZeroDivisionError.

Inductive result (A : Type) : Type :=
| Ok (a : A)
| Raise (e : exn).
Arguments Ok {A} a.
Arguments Raise {A} e.

Definition bind {A B : Type} (m : result A) (k : A -> result B) : result B :=
  match m with
  | Ok a => k a
  | Raise e => Raise e
  end.

Notation "'let*' x ':=' m 'in' k" := (bind m (fun x => k))
  (at level 200, x name, m at level 100, k at level 200).
Notation "'let*' ' p ':=' m 'in' k" :=
  (bind m (fun x => match x with p => k end))
  (at level 200, p pattern, m at level 100, k at level 200).

(** ** Text helpers: [str(int)], zero padding, [.encode('utf_8')], [str.replace] *)

Definition digit (n : N) : ascii := ascii_of_N (48 + n).

Fixpoint digits_fuel (fuel : nat) (n : N) (acc : string) : string :=
  match fuel with
  | O => acc
  | S f =>
      let acc' := String (digit (N.modulo n 10)) acc in
      if (n <? 10)%N then acc' else digits_fuel f (N.div n 10) acc'
  end.

(** Decimal digits of a natural number. *)
Definition N_str (n : N) : string := digits_fuel (S (N.size_nat n)) n "".

(** [str(z)] / ['{}'.format(z)] for a Python int. *)
Definition Z_str (z : Z) : string :=
  if z <? 0 then "-" ++ N_str (Z.to_N (- z)) else N_str (Z.to_N z).

Fixpoint zeros (n : nat) : string :=
  match n with O => "" | S k => "0" ++ zeros k end.

Definition pad_left0 (w : nat) (s : string) : string :=
  zeros (w - String.length s) ++ s.

(** ['{:0wd}'.format(z)]: the sign comes first, zeros fill up to width w. *)
Definition format_0d (w : nat) (z : Z) : string :=
  if z <? 0 then "-" ++ pad_left0 (w - 1) (N_str (Z.to_N (- z)))
  else pad_left0 w (N_str (Z.to_N z)).

(** UTF-8 encoding of code points 0..255. *)
Fixpoint utf8 (s : string) : string :=
  match s with
  | EmptyString => EmptyString
  | String c r =>
      let n := N_of_ascii c in
      if (n <? 128)%N then String c (utf8 r)
      else String (ascii_of_N (N.lor 192 (N.shiftr n 6)))
             (String (ascii_of_N (N.lor 128 (N.land n 63))) (utf8 r))
  end.

(** [s.replace(c, new)] for a one-character [c]. *)
Fixpoint replace_char (c : ascii) (new : string) (s : string) : string :=
  match s with
  | EmptyString => EmptyString
  | String x r =>
      if Ascii.eqb x c then new ++ replace_char c new r
      else String x (replace_char c new r)
  end.

Definition chr (n : N) : string := String (ascii_of_N n) "".
Definition LF : ascii := ascii_of_N 10.
Definition CR : ascii := ascii_of_N 13.
Definition TAB : ascii := ascii_of_N 9.
Definition BS : ascii := ascii_of_N 8.
Definition FF : ascii := ascii_of_N 12.
Definition BSL : ascii := ascii_of_N 92.
Definition nl : string := String LF "".
Definition bsl : string := String BSL "".

(** ['sep'.join(xs)] *)
Fixpoint join (sep : string) (xs : list string) : string :=
  match xs with
  | [] => ""
  | [x] => x
  | x :: r => x ++ sep ++ join sep r
  end.

(** ** COS values and objects *)

(** The Python class of a [Dictionary] instance. *)
Inductive dict_class : Type :=
| PlainDict | CatalogC | PagesC | PageC | FontC.

(** Attributes set by [Object.__init__]: [generation] and [identifier]
    ([None] for a direct object). *)
Record obj_attrs : Type := mk_attrs { generation : Z; identifier : option Z }.

Inductive value : Type :=
| Boolean (b : bool)
| Integer (z : Z)
| Real (repr : string)              (** [float.__str__] of the value *)
| Str (s : string)                  (** class [String] *)
| Name (n : string)
| Array (items : list pyobj)
| Dictionary (cls : dict_class) (entries : list (string * pyobj))
| Stream (payload : string)         (** the [BytesIO] contents *)
| Null
with pyobj : Type :=
| Reference (ref_identifier ref_generation : Z)
(** An instance of an [Object] subclass; [None] when [Object.__init__]
    never ran on it (the case of [Null], whose [__init__] is [pass]). *)
| Obj (attrs : option obj_attrs) (v : value).

(** A direct object: [Object.__init__(self, None)]. *)
Definition direct (v : value) : pyobj := Obj (Some (mk_attrs 0 None)) v.

(** [Null()] *)
Definition Null_new : pyobj := Obj None Null.

(** [Reference.bytes] *)
Definition reference_bytes (i g : Z) : string :=
  utf8 (Z_str i ++ " " ++ Z_str g ++ " R").

(** [String._bytes]: the chain of [replace] calls, then the wrapping. *)
Definition string_escape (value : string) : string :=
  let escaped := replace_char LF (bsl ++ "n") value in
  let escaped := replace_char CR (bsl ++ "r") escaped in
  let escaped := replace_char TAB (bsl ++ "t") escaped in
  let escaped := replace_char BS (bsl ++ "b") escaped in
  let escaped := replace_char FF (bsl ++ "f") escaped in
  (* for char in '\\()': escaped = escaped.replace(char, '\\{}'.format(char)) *)
  let escaped := replace_char BSL (bsl ++ bsl) escaped in
  let escaped := replace_char "(" (bsl ++ "(") escaped in
  let escaped := replace_char ")" (bsl ++ ")") escaped in
  utf8 ("(" ++ escaped ++ ")").

(** [Object.bytes] (use-site bytes) and the classes' [_bytes]. *)
Fixpoint bytes (o : pyobj) : result string :=
  match o with
  | Reference i g => Ok (reference_bytes i g)
  | Obj None _ => Raise AttributeError     (* is_direct reads self.identifier *)
  | Obj (Some a) v =>
      match identifier a with
      | None => _bytes v
      | Some i => Ok (reference_bytes i (generation a))
      end
  end
with _bytes (v : value) : result string :=
  match v with
  | Boolean b => Ok (if b then "true" else "false")
  | Integer z => Ok (utf8 (Z_str z))
  | Real r => Ok (utf8 r)
  | Str s => Ok (string_escape s)
  | Name n => Ok (utf8 ("/" ++ n))
  | Array items =>
      let fix go (l : list pyobj) : result (list string) :=
        match l with
        | [] => Ok []
        | x :: r => let* b := bytes x in let* bs := go r in Ok (b :: bs)
        end in
      let* bs := go items in Ok ("[" ++ join " " bs ++ "]")
  | Dictionary _ es =>
      let fix go (l : list (string * pyobj)) : result (list string) :=
        match l with
        | [] => Ok []
        | (k, x) :: r =>
            let* b := bytes x in let* bs := go r in
            Ok ((utf8 ("/" ++ k) ++ " " ++ b) :: bs)
        end in
      let* bs := go es in Ok ("<< " ++ join " " bs ++ " >>")
  | Stream payload =>
      let size := Z.of_nat (String.length payload) in
      Ok ("<< " ++ utf8 ("/Length") ++ " " ++ utf8 (Z_str size) ++ " >>"
          ++ nl ++ "stream" ++ nl ++ payload ++ nl ++ "endstream")
  | Null => Ok "null"
  end.

(** [Object.indirect_bytes]; a [Reference] has no such method, and an
    object never initialised by [Object.__init__] has no [identifier]. *)
Definition Z_opt_str (o : option Z) : string :=
  match o with Some z => Z_str z | None => "None" end.

Definition indirect_bytes (o : pyobj) : result string :=
  match o with
  | Obj (Some a) v =>
      let head := utf8 (Z_opt_str (identifier a) ++ " " ++ Z_str (generation a)
                        ++ " obj" ++ nl) in
      let* body := _bytes v in
      Ok (head ++ body ++ nl ++ "endobj")
  | _ => Raise AttributeError
  end.

(** ** [OrderedDict] operations on a [Dictionary]'s entries *)

Fixpoint od_get (es : list (string * pyobj)) (k : string) : option pyobj :=
  match es with
  | [] => None
  | (k', x) :: r => if String.eqb k k' then Some x else od_get r k
  end.

(** [d[k] = x]: an existing key keeps its position, a new key goes last. *)
Fixpoint od_set (es : list (string * pyobj)) (k : string) (x : pyobj)
  : list (string * pyobj) :=
  match es with
  | [] => [(k, x)]
  | (k', y) :: r => if String.eqb k k' then (k', x) :: r else (k', y) :: od_set r k x
  end.

(** ** [cos.Document], [cos.XRefTable] *)

Record xref : Type := mk_xref { xobjects : list pyobj; addresses : list Z }.

Definition xref_empty : xref := mk_xref [] [].

(** [XRefTable.append] *)
Definition xref_append (xr : xref) (o : pyobj) (address : Z) : xref :=
  mk_xref (xobjects xr ++ [o]) (addresses xr ++ [address]).

(** [XRefTable.__len__] *)
Definition xref_len (xr : xref) : Z := Z.of_nat (length (xobjects xr)) + 1.

(** [self.pages] and [self.catalog] are handles on registered objects,
    kept as their identifiers. *)
Record document : Type := mk_doc {
  _identifier : Z;
  objects : list pyobj;
  xref_table : xref;
  pages : Z;
  catalog : Z }.

Definition obj_id (o : pyobj) : option Z :=
  match o with
  | Obj (Some a) _ => identifier a
  | _ => None
  end.

Definition has_id (i : Z) (o : pyobj) : bool :=
  match obj_id o with Some j => Z.eqb j i | None => false end.

(** The registered object with identifier [i]. *)
Fixpoint reg_lookup (l : list pyobj) (i : Z) : option value :=
  match l with
  | [] => None
  | o :: r =>
      match o with
      | Obj (Some a) v => if has_id i o then Some v else reg_lookup r i
      | _ => reg_lookup r i
      end
  end.

Definition reg_replace (l : list pyobj) (i : Z) (v : value) : list pyobj :=
  map (fun o => match o with
                | Obj (Some a) _ => if has_id i o then Obj (Some a) v else o
                | _ => o
                end) l.

Definition set_objects (d : document) (l : list pyobj) : document :=
  mk_doc (_identifier d) l (xref_table d) (pages d) (catalog d).

Definition set_xref (d : document) (xr : xref) : document :=
  mk_doc (_identifier d) (objects d) xr (pages d) (catalog d).

(** A mutation of a registered object through a handle on it.  The lookup
    cannot miss for a handle obtained from registration. *)
Definition modify (d : document) (i : Z) (f : value -> result value)
  : result document :=
  match reg_lookup (objects d) i with
  | None => Raise KeyError
  | Some v => let* v' := f v in Ok (set_objects d (reg_replace (objects d) i v'))
  end.

(** [obj[k] = x] on a registered [Dictionary]. *)
Definition setitem (d : document) (i : Z) (k : string) (x : pyobj)
  : result document :=
  modify d i (fun v => match v with
                       | Dictionary c es => Ok (Dictionary c (od_set es k x))
                       | _ => Raise TypeError
                       end).

(** [Object.__init__(self, document)] for a document: [next_identifier]
    increments the counter and returns it, then [document.append(self)]. *)
Definition register (d : document) (v : value) : document * Z :=
  let i := _identifier d + 1 in
  (mk_doc i (objects d ++ [Obj (Some (mk_attrs 0 (Some i))) v])
          (xref_table d) (pages d) (catalog d), i).

(** [Pages.__init__] *)
Definition Pages_new (d : document) : result (document * Z) :=
  let '(d, i) := register d (Dictionary PagesC []) in
  let* d := setitem d i "Type" (direct (Name "Pages")) in
  let* d := setitem d i "Count" (direct (Integer 0)) in
  let* d := setitem d i "Kids" (direct (Array [])) in
  Ok (d, i).

(** [Catalog.__init__] *)
Definition Catalog_new (d : document) : result (document * Z) :=
  let '(d, i) := register d (Dictionary CatalogC []) in
  let* d := setitem d i "Type" (direct (Name "Catalog")) in
  Ok (d, i).

(** [Font.__init__] *)
Definition Font_new (d : document) : result (document * Z) :=
  let '(d, i) := register d (Dictionary FontC []) in
  let* d := setitem d i "Type" (direct (Name "Font")) in
  Ok (d, i).

(** [cos.Document.__init__] *)
Definition Document_init : result document :=
  let d := mk_doc 0 [] xref_empty 0 0 in
  let* '(d, p) := Pages_new d in
  let d := mk_doc (_identifier d) (objects d) (xref_table d) p (catalog d) in
  let* '(d, c) := Catalog_new d in
  let d := mk_doc (_identifier d) (objects d) (xref_table d) (pages d) c in
  setitem d c "Pages" (Reference p 0).

(** [Page.__init__(parent, width, height)]; [width], [height] are given by
    their [float.__str__]. *)
Definition Page_new (d : document) (parent : Z) (width height : string)
  : result (document * Z) :=
  let '(d, i) := register d (Dictionary PageC []) in
  let* d := setitem d i "Type" (direct (Name "Page")) in
  let* d := setitem d i "Parent" (Reference parent 0) in
  let* d := setitem d i "Resources" (direct (Dictionary PlainDict [])) in
  let* d := setitem d i "MediaBox"
              (direct (Array [direct (Integer 0); direct (Integer 0);
                              direct (Real width); direct (Real height)])) in
  Ok (d, i).

(** [self['Kids'].append(page.reference)] on the entries of the Pages node. *)
Definition kids_append (p : Z) (v : value) : result value :=
  match v with
  | Dictionary c es =>
      match od_get es "Kids" with
      | None => Raise KeyError
      | Some (Obj a (Array items)) =>
          Ok (Dictionary c (od_set es "Kids" (Obj a (Array (items ++ [Reference p 0])))))
      | Some _ => Raise AttributeError
      end
  | _ => Raise TypeError
  end.

(** [self['Count'] = Integer(self['Count'] + 1)]; the Count entry only ever
    holds an [Integer]. *)
Definition count_incr (v : value) : result value :=
  match v with
  | Dictionary c es =>
      match od_get es "Count" with
      | None => Raise KeyError
      | Some (Obj _ (Integer n)) =>
          Ok (Dictionary c (od_set es "Count" (direct (Integer (n + 1)))))
      | Some _ => Raise TypeError
      end
  | _ => Raise TypeError
  end.

(** [Pages.new_page]; [self] is the Pages node with identifier [self_id]. *)
Definition new_page (d : document) (self_id : Z) (width height : string)
  : result (document * Z) :=
  let* '(d, p) := Page_new d self_id width height in
  let* d := modify d self_id (kids_append p) in
  let* d := modify d self_id count_incr in
  Ok (d, p).

(** ** [Document.write] *)

Definition PDF_VERSION : string := "1.4".

Definition binary_marker : string :=
  "%" ++ String (ascii_of_N 220) (String (ascii_of_N 225)
           (String (ascii_of_N 216) (String (ascii_of_N 183) nl))).

Definition obj_generation (o : pyobj) : result Z :=
  match o with
  | Reference _ g => Ok g
  | Obj (Some a) _ => Ok (generation a)
  | Obj None _ => Raise AttributeError
  end.

(** [XRefTable.__str__] followed by [.encode('utf_8')]. *)
Definition xref_bytes (xr : xref) : result string :=
  let fix lines (l : list (pyobj * Z)) : result string :=
    match l with
    | [] => Ok ""
    | (o, address) :: r =>
        let* g := obj_generation o in
        let* rest := lines r in
        Ok (nl ++ format_0d 10 address ++ " " ++ format_0d 5 g ++ " n " ++ rest)
    end in
  let* body := lines (combine (xobjects xr) (addresses xr)) in
  Ok (utf8 ("xref" ++ nl ++ "0 " ++ Z_str (Z.of_nat (length (xobjects xr)) + 1)
            ++ nl ++ "0000000000 65535 f " ++ body)).

(** [out(string)]: [file.write(string + b'\n')]; the file is its contents,
    written at its end, and [file.tell()] is their length. *)
Definition out (file s : string) : string := file ++ s ++ nl.

Definition tell (file : string) : Z := Z.of_nat (String.length file).

(** The loop over [self.objects]: record the address, write the body. *)
Fixpoint write_objects (objs : list pyobj) (xr : xref) (file : string)
  : xref * string * option exn :=
  match objs with
  | [] => (xr, file, None)
  | o :: r =>
      let xr := xref_append xr o (tell file) in
      match indirect_bytes o with
      | Raise e => (xr, file, Some e)
      | Ok b => write_objects r xr (out file b)
      end
  end.

(** [Document.write(file)]: the document afterwards (its [xref_table] is
    mutated), the file contents, and the exception raised if any. *)
Definition write (d : document) (file : string) : document * string * option exn :=
  let file := out file (utf8 ("%PDF-" ++ PDF_VERSION)) in
  let file := file ++ binary_marker in
  let '(xr, file, err) := write_objects (objects d) (xref_table d) file in
  let d := set_xref d xr in
  match err with
  | Some e => (d, file, Some e)
  | None =>
      let xref_table_address := tell file in
      match xref_bytes xr with
      | Raise e => (d, file, Some e)
      | Ok xb =>
          let file := out file xb in
          let file := out file "trailer" in
          let trailer_dict :=
            direct (Dictionary PlainDict
                      [("Size", direct (Integer (xref_len xr)));
                       ("Root", Reference (catalog d) 0)]) in
          match bytes trailer_dict with
          | Raise e => (d, file, Some e)
          | Ok tb =>
              let file := out file tb in
              let file := out file "startxref" in
              let file := out file (utf8 (Z_str xref_table_address)) in
              let file := out file "%%EOF" in
              (d, file, None)
          end
      end
  end.

(** ** [Reference.target], [Reference.__getitem__] *)

(** [self.document.get_indirect_object(self.identifier, self.generation)]:
    [cos.Document] defines no attribute of that name (nor does any other
    class of the sources), so the attribute lookup raises [AttributeError]
    before any call is made. *)
Definition get_indirect_object (d : document) (i g : Z) : result value :=
  Raise AttributeError.

(** [Reference.target]: [except Exception: pass], so the property returns
    Python's [None] (here [None]) whenever the lookup raises. *)
Definition target (d : document) (i g : Z) : option value :=
  match get_indirect_object d i g with
  | Ok v => Some v
  | Raise _ => None
  end.

(** [Reference.__getitem__]: [self.target[name]]. *)
Definition reference_getitem (d : document) (i g : Z) (name : string)
  : result pyobj :=
  match target d i g with
  | None => Raise TypeError                  (* 'NoneType' is not subscriptable *)
  | Some (Dictionary _ es) =>
      match od_get es name with Some x => Ok x | None => Raise KeyError end
  | Some _ => Raise TypeError
  end.

(** ** [Canvas.show_glyphs] *)

(** The font-metrics lookup [char_metrics.by_glyph_name[glyph]]: the
    character code ['C'] and the advance width ['W0X']. *)
Definition char_metrics : Type := string -> option (Z * Z).

(** [int(q)]: truncation toward zero. *)
Definition py_int (q : Q) : Z := Z.quot (Qnum q) (Zpos (Qden q)).

(** The character emitted for a glyph of code [code]. *)
Definition glyph_char (code : Z) : string :=
  if code <? 0 then "?"
  else if 127 <? code then bsl ++ format_0d 3 code     (* '\{:03d}'.format(code) *)
  else let char := chr (Z.to_N code) in
       if (String.eqb char bsl || String.eqb char "(" || String.eqb char ")")%bool
       then bsl ++ char else char.

(** The loop of [show_glyphs] building [string]; numbers are exact
    rationals here. *)
Fixpoint glyphs_string (cm : char_metrics) (size : Q) (gs : list (string * Q))
  : result string :=
  match gs with
  | [] => Ok ""
  | (glyph, displ) :: r =>
      if Qeq_bool size 0 then Raise ZeroDivisionError else
      let displ := (1000 * displ / size)%Q in
      match cm glyph with
      | None => Raise KeyError
      | Some (code, width) =>
          let char := glyph_char code in
          let* rest := glyphs_string cm size r in
          Ok ("(" ++ char ++ ") " ++ Z_str (py_int (inject_Z width - displ)%Q)
              ++ " " ++ rest)
      end
  end.

(** [print(s, file=self)] *)
Definition print (buf s : string) : string := buf ++ s ++ nl.

(** [show_glyphs(x, y, font, size, glyphs, x_displacements)] appending to
    the canvas buffer [buf]; [x], [y], [size] are given by their [str] and
    [font_name] is the page-local alias the page returned. *)
Definition show_glyphs (buf : string) (x y : string) (cm : char_metrics)
  (size_str : string) (size : Q) (glyphs : list string)
  (x_displacements : list Q) (font_name : string) : result string :=
  let* string := glyphs_string cm size (combine glyphs x_displacements) in
  let buf := print buf "BT" in
  let buf := print buf ("/" ++ font_name ++ " " ++ size_str ++ " Tf") in
  let buf := print buf (x ++ " " ++ y ++ " Td") in
  let buf := print buf ("[ " ++ string ++ "] TJ") in
  Ok (print buf "ET").

(** ** The backend [Document] and [Page] ([__init__.py]) *)

(** A font, compared by identity ([font_key]) as a dict key. *)
Record font : Type := mk_font { font_key : nat; is_core : bool; ps_name : string }.

Record bpage : Type := mk_bpage {
  pdf_page : Z;                         (** handle on the cos [Page] *)
  canvas : string;                      (** the [PageCanvas] buffer *)
  font_number : Z;
  font_names : list (nat * string) }.

Record bdoc : Type := mk_bdoc {
  pdf_document : document;
  bpages : list bpage;
  fonts : list (nat * Z) }.              (** font -> handle on its [Font] *)

Fixpoint assoc_get {A : Type} (l : list (nat * A)) (k : nat) : option A :=
  match l with
  | [] => None
  | (k', x) :: r => if Nat.eqb k k' then Some x else assoc_get r k
  end.

Fixpoint list_set {A : Type} (l : list A) (n : nat) (x : A) : list A :=
  match l, n with
  | [], _ => []
  | _ :: r, O => x :: r
  | y :: r, S m => y :: list_set r m x
  end.

(** Backend [Document.__init__] *)
Definition bdoc_init : result bdoc :=
  let* d := Document_init in Ok (mk_bdoc d [] []).

(** Backend [Document.register_font] *)
Definition register_font (bd : bdoc) (f : font) : result (bdoc * Z) :=
  match assoc_get (fonts bd) (font_key f) with
  | Some font_rsc => Ok (bd, font_rsc)
  | None =>
      if is_core f then
        let* '(pd, font_rsc) := Font_new (pdf_document bd) in
        let* pd := setitem pd font_rsc "Subtype" (direct (Name "Type1")) in
        let* pd := setitem pd font_rsc "BaseFont" (direct (Name (ps_name f))) in
        Ok (mk_bdoc pd (bpages bd) (fonts bd ++ [(font_key f, font_rsc)]), font_rsc)
      else Raise AssertionError
  end.

(** [Canvas.__init__] of a [PageCanvas]: [translate(0, 0)]. *)
Definition page_canvas_init : string := print "" "1 0 0 1 0 0 cm".

(** Backend [Page.__init__]: the page is appended to [document.pages]; the
    result is its index there. *)
Definition bpage_new (bd : bdoc) (width height : string) : result (bdoc * nat) :=
  let pd := pdf_document bd in
  let* '(pd, p) := new_page pd (pages pd) width height in
  let pg := mk_bpage p page_canvas_init 1 [] in
  Ok (mk_bdoc pd (bpages bd ++ [pg]) (fonts bd), length (bpages bd)).

(** [page_rsc.setdefault('Font', cos.Dictionary())[name] = font_rsc.reference]
    on the entries of the page dictionary. *)
Definition resources_add_font (name : string) (font_rsc : Z) (v : value)
  : result value :=
  match v with
  | Dictionary c es =>
      match od_get es "Resources" with
      | None => Raise KeyError
      | Some (Obj a (Dictionary c' res)) =>
          let fonts_dict :=
            match od_get res "Font" with
            | Some x => x
            | None => direct (Dictionary PlainDict [])
            end in
          match fonts_dict with
          | Obj fa (Dictionary fc fes) =>
              let fonts_dict := Obj fa (Dictionary fc (od_set fes name (Reference font_rsc 0))) in
              Ok (Dictionary c (od_set es "Resources"
                                  (Obj a (Dictionary c' (od_set res "Font" fonts_dict)))))
          | _ => Raise TypeError
          end
      | Some _ => Raise AttributeError
      end
  | _ => Raise TypeError
  end.

(** Modelled from the spec: [self.document.backend_document] (the pyte page's
    document and its backend, which are not under src/) is the backend
    Document the page belongs to: "on miss, obtains the document-scope Font
    resource".  Backend [Page.register_font] for the page at index [p]. *)
Definition page_register_font (bd : bdoc) (p : nat) (f : font)
  : result (bdoc * string) :=
  match nth_error (bpages bd) p with
  | None => Raise IndexError
  | Some pg =>
      match assoc_get (font_names pg) (font_key f) with
      | Some name => Ok (bd, name)
      | None =>
          let* '(bd, font_rsc) := register_font bd f in
          let name := "F" ++ Z_str (font_number pg) in
          let* pd := modify (pdf_document bd) (pdf_page pg)
                       (resources_add_font name font_rsc) in
          let pg := mk_bpage (pdf_page pg) (canvas pg) (font_number pg + 1)
                             (font_names pg ++ [(font_key f, name)]) in
          Ok (mk_bdoc pd (list_set (bpages bd) p pg) (fonts bd), name)
      end
  end.

(** The entry [name] of the [Resources]/[Font] dictionary of a page
    dictionary. *)
Definition value_font_entry (v : value) (name : string) : option pyobj :=
  match v with
  | Dictionary _ es =>
      match od_get es "Resources" with
      | Some (Obj _ (Dictionary _ res)) =>
          match od_get res "Font" with
          | Some (Obj _ (Dictionary _ fes)) => od_get fes name
          | _ => None
          end
      | _ => None
      end
  | _ => None
  end.

(** The entry [name] of the [Resources]/[Font] dictionary of the page at
    index [p]. *)
Definition page_font_entry (bd : bdoc) (p : nat) (name : string) : option pyobj :=
  match nth_error (bpages bd) p with
  | None => None
  | Some pg =>
      match reg_lookup (objects (pdf_document bd)) (pdf_page pg) with
      | Some v => value_font_entry v name
      | None => None
      end
  end.

(** ** A conformant reader of literal strings (PDF 1.4, section 3.2.3) *)

Definition is_octal (c : ascii) : bool :=
  ((48 <=? N_of_ascii c) && (N_of_ascii c <=? 55))%N.

Definition octal_val (c : ascii) : N := (N_of_ascii c - 48)%N.

(** Decoding of the text between the outer parentheses: the escapes
    \n \r \t \b \f \( \) \\, octal \d, \dd, \ddd, a backslash before an
    end of line is dropped together with it, a backslash before any other
    character is ignored, and an unescaped CR or CR LF reads as LF. *)
Fixpoint pdf_unescape (s : string) : string :=
  match s with
  | EmptyString => EmptyString
  | String c r =>
      if Ascii.eqb c BSL then
        match r with
        | EmptyString => EmptyString
        | String e r1 =>
            if Ascii.eqb e "n" then String LF (pdf_unescape r1)
            else if Ascii.eqb e "r" then String CR (pdf_unescape r1)
            else if Ascii.eqb e "t" then String TAB (pdf_unescape r1)
            else if Ascii.eqb e "b" then String BS (pdf_unescape r1)
            else if Ascii.eqb e "f" then String FF (pdf_unescape r1)
            else if is_octal e then
              match r1 with
              | String e2 r2 =>
                  if is_octal e2 then
                    match r2 with
                    | String e3 r3 =>
                        if is_octal e3 then
                          String (ascii_of_N (64 * octal_val e + 8 * octal_val e2
                                              + octal_val e3)) (pdf_unescape r3)
                        else String (ascii_of_N (8 * octal_val e + octal_val e2))
                               (pdf_unescape r2)
                    | EmptyString => String (ascii_of_N (8 * octal_val e + octal_val e2)) ""
                    end
                  else String (ascii_of_N (octal_val e)) (pdf_unescape r1)
              | EmptyString => String (ascii_of_N (octal_val e)) ""
              end
            else if Ascii.eqb e LF then pdf_unescape r1
            else if Ascii.eqb e CR then
              match r1 with
              | String e2 r2 => if Ascii.eqb e2 LF then pdf_unescape r2 else pdf_unescape r1
              | EmptyString => EmptyString
              end
            else String e (pdf_unescape r1)
        end
      else if Ascii.eqb c CR then
        match r with
        | String e r1 => if Ascii.eqb e LF then String LF (pdf_unescape r1)
                         else String LF (pdf_unescape r)
        | EmptyString => String LF ""
        end
      else String c (pdf_unescape r)
  end.

Fixpoint drop_last (s : string) : option string :=
  match s with
  | EmptyString => None
  | String c EmptyString => if Ascii.eqb c ")" then Some "" else None
  | String c r => match drop_last r with Some t => Some (String c t) | None => None end
  end.

(** Reading a literal string token [( ... )] whose inner parentheses are
    all escaped (as every output of [String._bytes] is). *)
Definition pdf_read_literal (s : string) : option string :=
  match s with
  | String c r => if Ascii.eqb c "(" then option_map pdf_unescape (drop_last r) else None
  | EmptyString => None
  end.

(** ** Identifiers in the registry *)

(** Identifiers in the registry are 1..N in registration order and the
    counter is N. *)
Definition ids_ok (d : document) : Prop :=
  map obj_id (objects d) = map (fun k => Some (Z.of_nat k)) (seq 1 (length (objects d))) /\
  _identifier d = Z.of_nat (length (objects d)).

(** The documents a session can reach: construction, then any sequence of
    registrations ([Object.__init__] with the document) and mutations of
    registered objects through a handle ([obj[k] = x], [list.append], ...). *)
Inductive reachable : document -> Prop :=
| reach_init (d : document) : Document_init = Ok d -> reachable d
| reach_register (d : document) (v : value) : reachable d -> reachable (fst (register d v))
| reach_modify (d d' : document) (i : Z) (f : value -> result value) :
    reachable d -> modify d i f = Ok d' -> reachable d'.

(** ** The Pages node *)

Definition pages_entries (d : document) : option (list (string * pyobj)) :=
  match reg_lookup (objects d) (pages d) with
  | Some (Dictionary PagesC es) => Some es
  | _ => None
  end.

(** [Count] of the Pages node. *)
Definition pages_count (d : document) : option Z :=
  match pages_entries d with
  | Some es => match od_get es "Count" with Some (Obj _ (Integer c)) => Some c | _ => None end
  | None => None
  end.

(** The items of the [Kids] array of the Pages node. *)
Definition pages_kids (d : document) : option (list pyobj) :=
  match pages_entries d with
  | Some es => match od_get es "Kids" with Some (Obj _ (Array ks)) => Some ks | _ => None end
  | None => None
  end.

(** A kid is the reference of a registered [Page] whose [Parent] is the
    reference of the Pages node. *)
Definition kid_ok (d : document) (k : pyobj) : Prop :=
  exists p pes, k = Reference p 0 /\
    reg_lookup (objects d) p = Some (Dictionary PageC pes) /\
    od_get pes "Parent" = Some (Reference (pages d) 0).

Definition pages_inv (d : document) : Prop :=
  exists c kids, pages_count d = Some c /\ pages_kids d = Some kids /\
    c = Z.of_nat (length kids) /\ Forall (kid_ok d) kids.

(** The documents reached by construction, registrations and [new_page]
    calls on the document's Pages node. *)
Inductive reachable_pages : document -> Prop :=
| rp_init (d : document) : Document_init = Ok d -> reachable_pages d
| rp_register (d : document) (v : value) :
    reachable_pages d -> reachable_pages (fst (register d v))
| rp_new_page (d d' : document) (w h : string) (p : Z) :
    reachable_pages d -> new_page d (pages d) w h = Ok (d', p) -> reachable_pages d'.

(** The dictionary [Page.__init__] leaves in the registry. *)
Definition page_value (parent : Z) (width height : string) : value :=
  Dictionary PageC
    (od_set (od_set (od_set (od_set [] "Type" (direct (Name "Page")))
       "Parent" (Reference parent 0))
       "Resources" (direct (Dictionary PlainDict [])))
       "MediaBox" (direct (Array [direct (Integer 0); direct (Integer 0);
                                  direct (Real width); direct (Real height)]))).

(** ** Fonts of the backend pages *)

(** A page dictionary on which [Page.register_font] can record an alias:
    its [Resources] is a dictionary whose [Font] entry is absent or a
    dictionary. *)
Definition page_shape_ok (v : value) : Prop :=
  match v with
  | Dictionary _ es =>
      match od_get es "Resources" with
      | Some (Obj _ (Dictionary _ res)) =>
          match od_get res "Font" with
          | None => True
          | Some (Obj _ (Dictionary _ _)) => True
          | Some _ => False
          end
      | _ => False
      end
  | _ => False
  end.

Definition page_ok (d : document) (h : Z) : Prop :=
  exists v, reg_lookup (objects d) h = Some v /\ page_shape_ok v.

(** The [Font] dictionary [Document.register_font] leaves in the registry. *)
Definition Font_value (f : font) : value :=
  Dictionary FontC [("Type", direct (Name "Font")); ("Subtype", direct (Name "Type1"));
                    ("BaseFont", direct (Name (ps_name f)))].

(** A fresh backend page: [font_number = 1], [font_names = {}]. *)
Definition fresh_bpage (pg : bpage) : Prop :=
  font_number pg = 1 /\ font_names pg = [].

(** ** Inputs *)

(** The document [cos.Document()] constructs. *)
Definition doc0 : document :=
  match Document_init with Ok d => d | Raise _ => mk_doc 0 [] xref_empty 0 0 end.

Definition metrics_200 : char_metrics :=
  fun g => if String.eqb g "X" then Some (200, 500) else None.


(** Every character of [s] is 7-bit ASCII. *)
Fixpoint ascii7 (s : string) : bool :=
  match s with
  | EmptyString => true
  | String c r => ((N_of_ascii c <? 128)%N && ascii7 r)%bool
  end.

(** A backend document with two pages of size 595 x 842. *)
Definition bdoc2 : bdoc :=
  match (let* bd := bdoc_init in
         let* '(bd, _) := bpage_new bd "595.0" "842.0" in
         let* '(bd, _) := bpage_new bd "595.0" "842.0" in
         Ok bd) with
  | Ok bd => bd
  | Raise _ => mk_bdoc doc0 [] []
  end.

Definition font_a : font := mk_font 1 true "Helvetica".
Definition font_b : font := mk_font 2 true "Times-Roman".

(** ** The drawing operations of [Canvas] ([__init__.py]) *)

(** Numbers are given by their [str], as [print] formats them. *)

(** [Canvas.translate] *)
Definition translate (buf x y : string) : string :=
  print buf ("1 0 0 1 " ++ x ++ " " ++ y ++ " cm").

(** [Canvas.__init__]: an empty [StringIO], then [translate(left, bottom)]. *)
Definition canvas_new (left bottom : string) : string := translate "" left bottom.

Definition save_state (buf : string) : string := print buf "q".
Definition restore_state (buf : string) : string := print buf "Q".

(** [Canvas.append(canvas)]: [canvas.getvalue()] between [q] and [Q]. *)
Definition canvas_append (buf inner : string) : string :=
  let buf := save_state buf in
  let buf := buf ++ inner in
  restore_state buf.

(** [Canvas.scale(x, y=None)] *)
Definition scale (buf x : string) (y : option string) : string :=
  let y := match y with None => x | Some y => y end in
  print buf (x ++ " 0 0 " ++ y ++ " 0 0 cm").

Definition move_to (buf x y : string) : string := print buf (x ++ " " ++ y ++ " m").
Definition line_to (buf x y : string) : string := print buf (x ++ " " ++ y ++ " l").

(** [Canvas.new_path] is [pass]. *)
Definition new_path (buf : string) : string := buf.
Definition close_path (buf : string) : string := print buf "h".

(** [Canvas.line_path(points)]: [points[0]] raises [IndexError] on an
    empty list. *)
Definition line_path (buf : string) (points : list (string * string)) : result string :=
  let buf := new_path buf in
  match points with
  | [] => Raise IndexError
  | (x, y) :: rest =>
      let buf := move_to buf x y in
      let buf := fold_left (fun b (p : string * string) => let '(x, y) := p in line_to b x y)
                   rest buf in
      Ok (close_path buf)
  end.

Definition line_width (buf width : string) : string := print buf (width ++ " w").

(** A Python number passed as [linewidth]: its value, which decides its
    truth, and the [str] of [float] of it. *)
Record pynum : Type := mk_num { num_value : Q; float_str : string }.

(** [bool(x)] of a number. *)
Definition truthy_num (n : pynum) : bool := negb (Qeq_bool (num_value n) 0).

(** [color.rgba] *)
Definition rgba : Type := (Q * Q * Q * Q)%type.

(** [Canvas.color]: unpacks [color.rgba]; its [print] is commented out. *)
Definition color (buf : string) (c : rgba) : string :=
  let '(r, g, b, a) := c in buf.

(** [Canvas.stroke(linewidth=None, color=None)] *)
Definition stroke (buf : string) (linewidth : option pynum) (color_ : option rgba) : string :=
  let buf := save_state buf in
  let buf := match color_ with Some c => color buf c | None => buf end in
  let buf := match linewidth with
             | Some w => if truthy_num w then line_width buf (float_str w) else buf
             | None => buf
             end in
  let buf := print buf "s" in
  restore_state buf.

(** [Canvas.fill(color=None)] *)
Definition fill (buf : string) (color_ : option rgba) : string :=
  let buf := save_state buf in
  let buf := match color_ with Some c => color buf c | None => buf end in
  let buf := print buf "f" in
  restore_state buf.

(** ** Helpers for the properties of literal strings *)

Fixpoint str_forall (p : ascii -> bool) (s : string) : bool :=
  match s with
  | EmptyString => true
  | String c r => (p c && str_forall p r)%bool
  end.

(** None of the five characters [String._bytes] escapes by name. *)
Definition no_named_escape (s : string) : bool :=
  str_forall (fun c => negb (Ascii.eqb c LF || Ascii.eqb c CR || Ascii.eqb c TAB
                             || Ascii.eqb c BS || Ascii.eqb c FF)%bool) s.

(** What the reader makes of the literal [(char)] [show_glyphs] emits for
    the glyph code [code]. *)
Definition glyph_read_back (code : Z) : option string :=
  pdf_read_literal ("(" ++ glyph_char code ++ ")").

Definition glyph_read_ok (code : Z) : bool :=
  match glyph_read_back code with
  | Some s => String.eqb s (if code =? 13 then nl else chr (Z.to_N code))
  | None => false
  end.


(** ** Reading back what [String._bytes] escapes *)

(** The escape of one character by the last three [replace] calls of
    [String._bytes] (backslash, then the parentheses). *)
Definition esc_char (c : ascii) : string :=
  if Ascii.eqb c BSL then bsl ++ bsl
  else if Ascii.eqb c "(" then bsl ++ "("
  else if Ascii.eqb c ")" then bsl ++ ")"
  else String c "".

Fixpoint esc_all (s : string) : string :=
  match s with
  | EmptyString => EmptyString
  | String c r => esc_char c ++ esc_all r
  end.

(** ** Objects [Object.bytes] can serialise *)

(** No [Null] (whose [__init__] never sets [identifier]) is reached through
    the direct objects of [o]; an indirect object is written by reference. *)
Fixpoint serializable (o : pyobj) : bool :=
  match o with
  | Reference _ _ => true
  | Obj None _ => false
  | Obj (Some a) v =>
      match identifier a with
      | Some _ => true
      | None => value_serializable v
      end
  end
with value_serializable (v : value) : bool :=
  match v with
  | Array items => forallb serializable items
  | Dictionary _ es => forallb (fun e => serializable (snd e)) es
  | _ => true
  end.

(** A registry entry [indirect_bytes] can write. *)
Definition registry_ok (o : pyobj) : bool :=
  match o with
  | Obj (Some _) v => value_serializable v
  | _ => false
  end.

(** An object of the cross-reference table with a [generation]. *)
Definition generation_ok (o : pyobj) : bool :=
  match o with
  | Obj None _ => false
  | _ => true
  end.

(** ** Backend [Document.write] *)

(** [contents.write(b)] on a [cos.Stream]: [BytesIO.write] at the stream's
    position, which is its end (a fresh stream, written once). *)
Definition stream_write (b : string) (v : value) : result value :=
  match v with
  | Stream p => Ok (Stream (p ++ b))
  | _ => Raise TypeError
  end.

(** The loop of backend [Document.write] over [self.pages]:
    [contents = cos.Stream(self.pdf_document)],
    [contents.write(page.canvas.getvalue().encode('utf_8'))],
    [page.pdf_page['Contents'] = contents.reference]. *)
Fixpoint write_contents (pd : document) (pgs : list bpage) : result document :=
  match pgs with
  | [] => Ok pd
  | page :: r =>
      let '(pd, contents) := register pd (Stream "") in
      let* pd := modify pd contents (stream_write (utf8 (canvas page))) in
      let* pd := setitem pd (pdf_page page) "Contents" (Reference contents 0) in
      write_contents pd r
  end.

(** Backend [Document.write(filename)]: the file opened with ['wb'] starts
    empty; the result holds the document afterwards, the file contents and
    the exception [cos.Document.write] raised, if any. *)
Definition bdoc_write (bd : bdoc) : result (bdoc * string * option exn) :=
  let* pd := write_contents (pdf_document bd) (bpages bd) in
  let '(pd, file, err) := write pd "" in
  Ok (mk_bdoc pd (bpages bd) (fonts bd), file, err).

(** ** Backend documents a session reaches *)

(** Construction, new pages, fonts registered with the document or with a
    page, and any drawing on a page's canvas. *)
Inductive reachable_bdoc : bdoc -> Prop :=
| rb_init (bd : bdoc) : bdoc_init = Ok bd -> reachable_bdoc bd
| rb_page (bd bd' : bdoc) (w h : string) (p : nat) :
    reachable_bdoc bd -> bpage_new bd w h = Ok (bd', p) -> reachable_bdoc bd'
| rb_doc_font (bd bd' : bdoc) (f : font) (r : Z) :
    reachable_bdoc bd -> register_font bd f = Ok (bd', r) -> reachable_bdoc bd'
| rb_page_font (bd bd' : bdoc) (p : nat) (f : font) (name : string) :
    reachable_bdoc bd -> page_register_font bd p f = Ok (bd', name) -> reachable_bdoc bd'
| rb_draw (bd : bdoc) (p : nat) (pg : bpage) (s : string) :
    reachable_bdoc bd -> nth_error (bpages bd) p = Some pg ->
    reachable_bdoc (mk_bdoc (pdf_document bd)
                      (list_set (bpages bd) p
                         (mk_bpage (pdf_page pg) s (font_number pg) (font_names pg)))
                      (fonts bd)).

(** A registry every object of which can be written, with an empty
    cross-reference table, whose handles [hs] name page dictionaries. *)
Definition doc_inv (pd : document) (hs : list Z) : Prop :=
  ids_ok pd /\ xref_table pd = xref_empty /\
  Forall (fun o => registry_ok o = true) (objects pd) /\
  Forall (page_ok pd) hs.

Definition bdoc_inv (bd : bdoc) : Prop :=
  doc_inv (pdf_document bd) (map pdf_page (bpages bd)) /\ NoDup (map pdf_page (bpages bd)).

(** ** Page font aliases *)

(** Reading decimal digits back, most significant first. *)
Fixpoint read_dec (s : string) (a : N) : N :=
  match s with
  | EmptyString => a
  | String c r => read_dec r (a * 10 + (N_of_ascii c - 48))%N
  end.

(** The alias ['F{}'.format(k)]. *)
Definition alias_name (k : nat) : string := "F" ++ Z_str (Z.of_nat k).

(** The [Resources]/[Font] entry [name] of the object [h] is the reference
    [r 0 R]. *)
Definition entry_agrees (pd : document) (h : Z) (name : string) (r : Z) : Prop :=
  exists v, reg_lookup (objects pd) h = Some v /\ value_font_entry v name = Some (Reference r 0).

(** The aliases of a backend page are F1, ..., Fn in registration order, one
    per font, and each is a reference to the [Font] object the document
    holds for that font. *)
Definition aliases_ok (bd : bdoc) (pg : bpage) : Prop :=
  font_number pg = Z.of_nat (length (font_names pg)) + 1 /\
  map snd (font_names pg) = map alias_name (seq 1 (length (font_names pg))) /\
  NoDup (map fst (font_names pg)) /\
  Forall (fun e => exists r, assoc_get (fonts bd) (fst e) = Some r /\
                             entry_agrees (pdf_document bd) (pdf_page pg) (snd e) r)
         (font_names pg).

(** ** The Pages node *)


(** ** More inputs *)

(** The backend document with one page. *)
Definition bdoc1 : bdoc :=
  match (let* bd := bdoc_init in
         let* '(bd, _) := bpage_new bd "595.0" "842.0" in
         Ok bd) with
  | Ok bd => bd
  | Raise _ => mk_bdoc doc0 [] []
  end.

(** [bdoc2] after [font_a] on page 0, [font_b] on page 0, [font_b] on
    page 1. *)
Definition bdoc_f1 : bdoc :=
  match page_register_font bdoc2 0 font_a with Ok (bd, _) => bd | Raise _ => bdoc2 end.

Definition bdoc_f2 : bdoc :=
  match page_register_font bdoc_f1 0 font_b with Ok (bd, _) => bd | Raise _ => bdoc_f1 end.

Definition bdoc_f3 : bdoc :=
  match page_register_font bdoc_f2 1 font_b with Ok (bd, _) => bd | Raise _ => bdoc_f2 end.

(** * Properties *)

(** ** Writing twice *)

(** C1 (code_bug): two writes of the freshly constructed document, each to an
    empty file, raise nothing and yield different bytes: [Document.write]
    appends to the document's own [xref_table], which nothing resets, so the
    second output lists every object twice and has [/Size 5] for 2 objects. *)
Theorem write_twice_not_identical :
  match Document_init with
  | Ok d =>
      let '(d1, f1, e1) := write d "" in
      let '(_, f2, e2) := write d1 "" in
      length (objects d) = 2%nat /\ e1 = None /\ e2 = None /\ f1 <> f2
  | Raise _ => False
  end.
Proof.
  vm_compute. split; [reflexivity | split; [reflexivity | split; [reflexivity | discriminate]]].
Qed.

(** C5 (code_bug): the xref table emitted by the second write of the
    freshly constructed document (2 registered objects) has the subsection
    header [0 5] and four object lines, not [0 3] and two. *)
Theorem xref_second_write_doubled :
  match Document_init with
  | Ok d =>
      let '(d1, _, _) := write d "" in
      let '(d2, _, _) := write d1 "" in
      length (objects d) = 2%nat /\
      xref_bytes (xref_table d1) =
        Ok ("xref" ++ nl ++ "0 3" ++ nl ++ "0000000000 65535 f " ++ nl
            ++ "0000000015 00000 n " ++ nl ++ "0000000067 00000 n ") /\
      xref_bytes (xref_table d2) =
        Ok ("xref" ++ nl ++ "0 5" ++ nl ++ "0000000000 65535 f " ++ nl
            ++ "0000000015 00000 n " ++ nl ++ "0000000067 00000 n " ++ nl
            ++ "0000000015 00000 n " ++ nl ++ "0000000067 00000 n ")
  | Raise _ => False
  end.
Proof.
  vm_compute. split; [reflexivity | split; reflexivity].
Qed.

(** ** String escaping *)

(** C2 (code_bug): [String._bytes] escapes a line feed as [\n] and then
    doubles that backslash in the backslash pass, so the one-character string
    made of a line feed is written [(\\n)], which a conformant reader reads
    back as the two characters backslash and [n]. *)
Theorem string_escape_newline_not_roundtrip :
  string_escape (String LF "") = "(" ++ bsl ++ bsl ++ "n)" /\
  pdf_read_literal (string_escape (String LF "")) = Some (bsl ++ "n") /\
  pdf_read_literal (string_escape (String LF "")) <> Some (String LF "").
Proof.
  vm_compute. split; [reflexivity | split; [reflexivity | discriminate]].
Qed.

(** ** Glyph codes in [show_glyphs] *)

(** C3 (code_bug): a glyph of code 200 is emitted as [\200], the code in
    three decimal digits ['\{:03d}'], not as the octal escape [\310]. *)
Theorem glyph_code_200_decimal :
  glyph_char 200 = bsl ++ "200" /\
  glyph_char 200 <> bsl ++ "310" /\
  glyphs_string metrics_200 12 [("X", 0%Q)] = Ok ("(" ++ bsl ++ "200) 500 ").
Proof.
  vm_compute. split; [reflexivity | split; [discriminate | reflexivity]].
Qed.

(** ** Dereferencing a [Reference] *)

(** C4 (code_bug): in the freshly constructed document the Pages node is
    registered, yet [target] of its reference is [None], item access through
    the reference raises [TypeError], and an unknown identifier also gives
    [None] without any error: the lookup calls a method [cos.Document] does
    not have and the [AttributeError] is swallowed. *)
Theorem reference_target_none :
  match Document_init with
  | Ok d =>
      reg_lookup (objects d) (pages d) <> None /\
      target d (pages d) 0 = None /\
      reference_getitem d (pages d) 0 "Count" = Raise TypeError /\
      reg_lookup (objects d) 99 = None /\
      target d 99 0 = None
  | Raise _ => False
  end.
Proof.
  vm_compute. split; [discriminate | repeat split].
Qed.

(** ** [Null] *)

(** C8 (code_bug): [Null._bytes] is [null], but the use-site bytes of a
    [Null()] raise [AttributeError], directly and inside an [Array]: its
    [__init__] is [pass], so [Object.__init__] never sets [identifier], which
    [is_direct] reads. *)
Theorem null_use_site_raises :
  _bytes Null = Ok "null" /\
  bytes Null_new = Raise AttributeError /\
  bytes (direct (Array [Null_new])) = Raise AttributeError.
Proof.
  repeat split.
Qed.

(** ** The registry *)

Section Registry.

Lemma bind_ok {A B : Type} (m : result A) (k : A -> result B) (b : B) :
  bind m k = Ok b -> exists a, m = Ok a /\ k a = Ok b.
Proof. destruct m as [a|e]; simpl; [eauto | discriminate]. Qed.

Lemma has_id_obj_id (i : Z) (o : pyobj) : has_id i o = true <-> obj_id o = Some i.
Proof.
  unfold has_id. destruct (obj_id o) as [j|]; split; intro H; try discriminate.
  - apply Z.eqb_eq in H; subst; reflexivity.
  - injection H as ->; apply Z.eqb_refl.
Qed.

Lemma reg_lookup_app_some (l : list pyobj) (x : pyobj) (i : Z) (v : value) :
  reg_lookup l i = Some v -> reg_lookup (l ++ [x]) i = Some v.
Proof.
  induction l as [|o l IH]; simpl; [discriminate|].
  destruct o as [|[a|] w]; auto.
  destruct (has_id i (Obj (Some a) w)); auto.
Qed.

Lemma reg_lookup_app_none (l : list pyobj) (i j : Z) (v : value) :
  reg_lookup l i = None ->
  reg_lookup (l ++ [Obj (Some (mk_attrs 0 (Some j))) v]) i =
    if Z.eqb j i then Some v else None.
Proof.
  induction l as [|o l IH]; simpl; intro H.
  - unfold has_id; simpl. reflexivity.
  - destruct o as [|[a|] w]; auto.
    destruct (has_id i (Obj (Some a) w)); [discriminate | auto].
Qed.

Lemma reg_lookup_replace (l : list pyobj) (i k : Z) (v : value) :
  reg_lookup (reg_replace l i v) k =
    if Z.eqb k i then option_map (fun _ => v) (reg_lookup l i)
    else reg_lookup l k.
Proof.
  induction l as [|o l IH]; simpl.
  - destruct (Z.eqb k i); reflexivity.
  - destruct o as [ri rg|[a|] w]; simpl; [exact IH| |exact IH].
    destruct a as [g [j|]]; unfold has_id, obj_id; simpl; [|exact IH].
    destruct (Z.eqb_spec j i) as [->|Hji]; simpl.
    + destruct (Z.eqb_spec i k) as [->|Hik].
      * rewrite Z.eqb_refl. reflexivity.
      * destruct (Z.eqb_spec k i); [congruence|]. exact IH.
    + destruct (Z.eqb_spec j k) as [->|Hjk].
      * destruct (Z.eqb_spec k i); [congruence|reflexivity].
      * rewrite IH. destruct (Z.eqb_spec k i) as [->|]; [|reflexivity].
        destruct (Z.eqb_spec j i); [congruence|reflexivity].
Qed.

Lemma reg_replace_absent (l : list pyobj) (i : Z) (v : value) :
  reg_lookup l i = None -> reg_replace l i v = l.
Proof.
  induction l as [|o l IH]; simpl; intro H; [reflexivity|].
  destruct o as [ri rg|[[g [j|]]|] w]; unfold has_id, obj_id in *; simpl in *;
    try (f_equal; auto; fail).
  destruct (Z.eqb j i); [discriminate|]. f_equal; auto.
Qed.

Lemma reg_replace_app (l : list pyobj) (x : pyobj) (i : Z) (v : value) :
  has_id i x = false -> reg_replace (l ++ [x]) i v = (reg_replace l i v ++ [x])%list.
Proof.
  intro H. unfold reg_replace. rewrite map_app. simpl. f_equal.
  destruct x as [|[a|] w]; simpl; try reflexivity. rewrite H. reflexivity.
Qed.

Lemma reg_replace_twice (l : list pyobj) (i : Z) (v1 v2 : value) :
  reg_replace (reg_replace l i v1) i v2 = reg_replace l i v2.
Proof.
  induction l as [|o l IH]; simpl; [reflexivity|]. rewrite IH.
  destruct o as [ri rg|[[g [j|]]|] w]; unfold has_id, obj_id; cbn; try reflexivity.
  destruct (Z.eqb j i) eqn:E; unfold has_id, obj_id; cbn; rewrite ?E; reflexivity.
Qed.

Lemma map_obj_id_replace (l : list pyobj) (i : Z) (v : value) :
  map obj_id (reg_replace l i v) = map obj_id l.
Proof.
  induction l as [|o l IH]; simpl; [reflexivity|]. rewrite IH.
  destruct o as [|[a|] w]; simpl; try reflexivity.
  destruct (has_id i (Obj (Some a) w)); reflexivity.
Qed.

Lemma reg_lookup_in_ids (l : list pyobj) (i : Z) (v : value) :
  reg_lookup l i = Some v -> In (Some i) (map obj_id l).
Proof.
  induction l as [|o l IH]; simpl; [discriminate|].
  destruct o as [ri rg|[[g [j|]]|] w]; unfold has_id, obj_id in *; cbn in *; intro H;
    try (right; auto; fail).
  destruct (Z.eqb_spec j i) as [->|]; [left; reflexivity | right; auto].
Qed.

Lemma set_objects_twice (d : document) (l1 l2 : list pyobj) :
  set_objects (set_objects d l1) l2 = set_objects d l2.
Proof. destruct d; reflexivity. Qed.

(** A mutation through a handle, read forwards. *)
Lemma modify_ok (d : document) (i : Z) (f : value -> result value) (v v' : value) :
  reg_lookup (objects d) i = Some v -> f v = Ok v' ->
  modify d i f = Ok (set_objects d (reg_replace (objects d) i v')).
Proof. intros H1 H2. unfold modify. rewrite H1. simpl. rewrite H2. reflexivity. Qed.

Lemma modify_inv (d d' : document) (i : Z) (f : value -> result value) :
  modify d i f = Ok d' ->
  exists v v', reg_lookup (objects d) i = Some v /\ f v = Ok v' /\
               d' = set_objects d (reg_replace (objects d) i v').
Proof.
  unfold modify. destruct (reg_lookup (objects d) i) as [v|]; [|discriminate].
  intro H. apply bind_ok in H as [v' [H1 H2]]. injection H2 as <-. eauto.
Qed.

(** A [setitem] on the object just appended to the registry. *)
Lemma setitem_last (d : document) (l : list pyobj) (i : Z) (c : dict_class)
  (es : list (string * pyobj)) (k : string) (x : pyobj) :
  reg_lookup l i = None ->
  objects d = (l ++ [Obj (Some (mk_attrs 0 (Some i))) (Dictionary c es)])%list ->
  setitem d i k x =
    Ok (set_objects d (l ++ [Obj (Some (mk_attrs 0 (Some i))) (Dictionary c (od_set es k x))])%list).
Proof.
  intros Hl Ho. unfold setitem.
  erewrite modify_ok; [| rewrite Ho, reg_lookup_app_none, Z.eqb_refl; [reflexivity | exact Hl]
                       | reflexivity].
  f_equal. f_equal. rewrite Ho. unfold reg_replace. rewrite map_app.
  fold (reg_replace l i (Dictionary c (od_set es k x))).
  rewrite reg_replace_absent by exact Hl. simpl. unfold has_id. simpl.
  rewrite Z.eqb_refl. reflexivity.
Qed.

Lemma od_get_set_same (es : list (string * pyobj)) (k : string) (x : pyobj) :
  od_get (od_set es k x) k = Some x.
Proof.
  induction es as [|[k' y] es IH]; simpl.
  - rewrite String.eqb_refl. reflexivity.
  - destruct (String.eqb_spec k k') as [->|]; simpl.
    + rewrite String.eqb_refl. reflexivity.
    + destruct (String.eqb_spec k k'); [contradiction | exact IH].
Qed.

Lemma od_get_set_other (es : list (string * pyobj)) (k k' : string) (x : pyobj) :
  k' <> k -> od_get (od_set es k x) k' = od_get es k'.
Proof.
  intro Hne. induction es as [|[k0 y] es IH]; simpl.
  - destruct (String.eqb_spec k' k); [contradiction | reflexivity].
  - destruct (String.eqb_spec k k0) as [->|]; simpl.
    + destruct (String.eqb_spec k' k0); [contradiction | reflexivity].
    + destruct (String.eqb_spec k' k0); [reflexivity | exact IH].
Qed.

End Registry.

Section Identifiers.

Lemma ids_ok_register (d : document) (v : value) :
  ids_ok d -> ids_ok (fst (register d v)).
Proof.
  intros [H1 H2]. unfold register, ids_ok; simpl.
  rewrite length_app, map_app, H1. simpl. rewrite Nat.add_1_r, seq_S, map_app. simpl.
  rewrite Zpos_P_of_succ_nat.
  assert (E : _identifier d + 1 = Z.succ (Z.of_nat (length (objects d)))) by lia.
  rewrite E. split; reflexivity.
Qed.

Lemma ids_ok_modify (d d' : document) (i : Z) (f : value -> result value) :
  ids_ok d -> modify d i f = Ok d' -> ids_ok d'.
Proof.
  intros [H1 H2] H. apply modify_inv in H as [v [v' [_ [_ ->]]]].
  destruct d; unfold ids_ok, set_objects in *; simpl in *.
  rewrite map_obj_id_replace. unfold reg_replace. rewrite length_map. auto.
Qed.

Lemma ids_ok_init (d : document) : Document_init = Ok d -> ids_ok d.
Proof. vm_compute. intro H. injection H as <-. split; reflexivity. Qed.

Lemma reachable_ids_ok (d : document) : reachable d -> ids_ok d.
Proof.
  induction 1.
  - apply ids_ok_init; assumption.
  - apply ids_ok_register; assumption.
  - eapply ids_ok_modify; eassumption.
Qed.

Lemma ids_ok_bound (d : document) (i : Z) (v : value) :
  ids_ok d -> reg_lookup (objects d) i = Some v -> 1 <= i <= _identifier d.
Proof.
  intros [H1 H2] H. apply reg_lookup_in_ids in H. rewrite H1 in H.
  apply in_map_iff in H as [k [Hk Hin]]. apply in_seq in Hin.
  injection Hk as <-. lia.
Qed.

Lemma ids_ok_fresh (d : document) : ids_ok d -> reg_lookup (objects d) (_identifier d + 1) = None.
Proof.
  intro H. destruct (reg_lookup (objects d) (_identifier d + 1)) eqn:E; [|reflexivity].
  apply (ids_ok_bound d) in E; [lia | exact H].
Qed.

End Identifiers.

Section PagesNode.

Lemma Page_new_eq (d : document) (parent : Z) (w h : string) :
  reg_lookup (objects d) (_identifier d + 1) = None ->
  Page_new d parent w h =
    Ok (mk_doc (_identifier d + 1)
          (objects d ++ [Obj (Some (mk_attrs 0 (Some (_identifier d + 1))))
                           (page_value parent w h)])%list
          (xref_table d) (pages d) (catalog d),
        _identifier d + 1).
Proof.
  intro Hf. unfold Page_new, register. cbv beta iota zeta.
  rewrite (setitem_last _ (objects d) _ PageC []) by (exact Hf || reflexivity).
  cbn [bind]. rewrite (setitem_last _ (objects d) _ PageC _) by (exact Hf || reflexivity).
  cbn [bind]. rewrite (setitem_last _ (objects d) _ PageC _) by (exact Hf || reflexivity).
  cbn [bind]. rewrite (setitem_last _ (objects d) _ PageC _) by (exact Hf || reflexivity).
  cbn [bind]. reflexivity.
Qed.

Lemma pages_entries_inv (d : document) (es : list (string * pyobj)) :
  pages_entries d = Some es -> reg_lookup (objects d) (pages d) = Some (Dictionary PagesC es).
Proof.
  unfold pages_entries. destruct (reg_lookup (objects d) (pages d)) as [v|]; [|discriminate].
  destruct v; try discriminate. destruct cls; try discriminate.
  intro H; injection H as ->; reflexivity.
Qed.

Lemma pages_inv_unfold (d : document) :
  pages_inv d ->
  exists es ac c ak kids,
    reg_lookup (objects d) (pages d) = Some (Dictionary PagesC es) /\
    od_get es "Count" = Some (Obj ac (Integer c)) /\
    od_get es "Kids" = Some (Obj ak (Array kids)) /\
    c = Z.of_nat (length kids) /\ Forall (kid_ok d) kids.
Proof.
  intros [c [kids [Hc [Hk [Hl Hall]]]]].
  unfold pages_count, pages_kids in *.
  destruct (pages_entries d) as [es|] eqn:E; [|discriminate].
  apply pages_entries_inv in E.
  destruct (od_get es "Count") as [[|ac [| n | | | | | | |]]|] eqn:Ec; try discriminate.
  destruct (od_get es "Kids") as [[|ak [| | | | | ks | | |]]|] eqn:Ek; try discriminate.
  injection Hc as <-. injection Hk as <-.
  exists es, ac, n, ak, ks. auto.
Qed.

(** [new_page] on a document whose Pages node has [Count] and [Kids]: the
    new page is registered last, the Pages node gets the new kid and
    [Count] + 1, nothing else changes. *)
Lemma new_page_eq (d : document) (w h : string) (es : list (string * pyobj))
  (ac ak : option obj_attrs) (c : Z) (kids : list pyobj) :
  ids_ok d ->
  reg_lookup (objects d) (pages d) = Some (Dictionary PagesC es) ->
  od_get es "Count" = Some (Obj ac (Integer c)) ->
  od_get es "Kids" = Some (Obj ak (Array kids)) ->
  let p := _identifier d + 1 in
  let es' := od_set (od_set es "Kids" (Obj ak (Array (kids ++ [Reference p 0])%list)))
               "Count" (direct (Integer (c + 1))) in
  new_page d (pages d) w h =
    Ok (mk_doc p
          (reg_replace (objects d) (pages d) (Dictionary PagesC es')
           ++ [Obj (Some (mk_attrs 0 (Some p))) (page_value (pages d) w h)])%list
          (xref_table d) (pages d) (catalog d), p).
Proof.
  intros Hids HP Hc Hk p es'.
  assert (Hf : reg_lookup (objects d) p = None) by (apply ids_ok_fresh; exact Hids).
  assert (HPp : pages d <> p).
  { intro E. rewrite <- E in Hf. congruence. }
  unfold new_page. rewrite Page_new_eq by exact Hf. cbn [bind].
  set (x := Obj (Some (mk_attrs 0 (Some p))) (page_value (pages d) w h)).
  assert (Hx : has_id (pages d) x = false).
  { unfold x, has_id; simpl. apply Z.eqb_neq. congruence. }
  set (es1 := od_set es "Kids" (Obj ak (Array (kids ++ [Reference p 0])%list))).
  rewrite (modify_ok _ _ _ (Dictionary PagesC es) (Dictionary PagesC es1)).
  2:{ simpl. apply reg_lookup_app_some. exact HP. }
  2:{ unfold kids_append. rewrite Hk. reflexivity. }
  cbn [bind]. simpl objects.
  rewrite (modify_ok _ _ _ (Dictionary PagesC es1) (Dictionary PagesC es')).
  2:{ simpl. rewrite reg_replace_app by exact Hx. apply reg_lookup_app_some.
      rewrite reg_lookup_replace, Z.eqb_refl, HP. reflexivity. }
  2:{ unfold count_incr, es1. rewrite od_get_set_other by discriminate. rewrite Hc. reflexivity. }
  cbn [bind]. simpl. rewrite reg_replace_app by exact Hx.
  rewrite reg_replace_app by exact Hx. rewrite reg_replace_twice. reflexivity.
Qed.

End PagesNode.

Section PagesInvariant.

Lemma doc0_eq : Document_init = Ok doc0.
Proof. vm_compute. reflexivity. Qed.

Lemma pages_inv_init (d : document) : Document_init = Ok d -> pages_inv d.
Proof.
  rewrite doc0_eq. intro H. injection H as <-.
  exists 0, []. vm_compute. repeat split. constructor.
Qed.

Lemma pages_entries_register (d : document) (v : value) (es : list (string * pyobj)) :
  pages_entries d = Some es -> pages_entries (fst (register d v)) = Some es.
Proof.
  intro H. pose proof (pages_entries_inv _ _ H) as HP.
  unfold pages_entries; simpl. rewrite (reg_lookup_app_some _ _ _ _ HP). reflexivity.
Qed.

Lemma pages_inv_register (d : document) (v : value) :
  pages_inv d -> pages_inv (fst (register d v)).
Proof.
  intros [c [kids [Hc [Hk [Hl Hall]]]]]. exists c, kids.
  unfold pages_count, pages_kids in *.
  destruct (pages_entries d) as [es|] eqn:E; [|discriminate].
  rewrite (pages_entries_register _ v _ E). repeat split; try assumption.
  eapply Forall_impl; [|exact Hall].
  intros k [q [pes [-> [Hq Hpar]]]]. exists q, pes. repeat split; [|exact Hpar].
  simpl. apply reg_lookup_app_some. exact Hq.
Qed.

Lemma new_page_step (d : document) (w h : string) :
  ids_ok d -> pages_inv d ->
  exists d' p, new_page d (pages d) w h = Ok (d', p) /\
    ids_ok d' /\ pages_inv d' /\ pages d' = pages d /\
    pages_count d' = option_map (fun c => c + 1) (pages_count d) /\
    option_map (@length pyobj) (pages_kids d') =
      option_map (fun ks => S (length ks)) (pages_kids d).
Proof.
  intros Hids Hinv.
  pose proof Hinv as [c0 [kids0 [Hc0 [Hk0 _]]]].
  destruct (pages_inv_unfold d Hinv) as [es [ac [c [ak [kids [HP [Hc [Hk [Hl Hall]]]]]]]]].
  rewrite (new_page_eq d w h es ac ak c kids Hids HP Hc Hk).
  set (P := pages d) in *. set (p := _identifier d + 1).
  set (es' := od_set (od_set es "Kids" (Obj ak (Array (kids ++ [Reference p 0])%list)))
                "Count" (direct (Integer (c + 1)))).
  set (x := Obj (Some (mk_attrs 0 (Some p))) (page_value P w h)).
  set (l' := (reg_replace (objects d) P (Dictionary PagesC es') ++ [x])%list).
  assert (Hf : reg_lookup (objects d) p = None) by (apply ids_ok_fresh; exact Hids).
  assert (HPp : P <> p) by (intro E; rewrite <- E in Hf; congruence).
  assert (LP : reg_lookup l' P = Some (Dictionary PagesC es')).
  { unfold l'. apply reg_lookup_app_some. rewrite reg_lookup_replace, Z.eqb_refl, HP. reflexivity. }
  assert (Lold : forall q v, q <> P -> reg_lookup (objects d) q = Some v -> reg_lookup l' q = Some v).
  { intros q v Hq E. unfold l'. apply reg_lookup_app_some.
    rewrite reg_lookup_replace. destruct (Z.eqb_spec q P); [contradiction | exact E]. }
  assert (Lp : reg_lookup l' p = Some (page_value P w h)).
  { unfold l', x. rewrite reg_lookup_app_none, Z.eqb_refl; [reflexivity|].
    rewrite reg_lookup_replace. destruct (Z.eqb_spec p P); [congruence | exact Hf]. }
  set (d' := mk_doc p l' (xref_table d) P (catalog d)).
  assert (Hcount : pages_count d' = Some (c + 1)).
  { unfold pages_count, pages_entries, d'; simpl. rewrite LP.
    unfold es'. rewrite od_get_set_same. reflexivity. }
  assert (Hkids : pages_kids d' = Some (kids ++ [Reference p 0])%list).
  { unfold pages_kids, pages_entries, d'; simpl. rewrite LP.
    unfold es'. rewrite od_get_set_other by discriminate. rewrite od_get_set_same. reflexivity. }
  assert (Ec : pages_count d = Some c).
  { unfold pages_count, pages_entries. fold P. rewrite HP, Hc. reflexivity. }
  assert (Ek : pages_kids d = Some kids).
  { unfold pages_kids, pages_entries. fold P. rewrite HP, Hk. reflexivity. }
  exists d', p. split; [reflexivity|].
  split.
  { destruct (ids_ok_register d (page_value P w h) Hids) as [R1 R2].
    unfold register in R1, R2; simpl in R1, R2.
    unfold ids_ok, d', l'; simpl.
    assert (Len : length (reg_replace (objects d) P (Dictionary PagesC es')) = length (objects d))
      by (unfold reg_replace; apply length_map).
    rewrite map_app, map_obj_id_replace, <- map_app, length_app, Len, <- length_app.
    split; [exact R1 | exact R2]. }
  split.
  { exists (c + 1), (kids ++ [Reference p 0])%list.
    split; [exact Hcount|]. split; [exact Hkids|].
    split; [rewrite length_app; simpl; lia|].
    apply Forall_app. split.
    - eapply Forall_impl; [|exact Hall].
      intros k [q [pes [-> [Hq Hpar]]]]. exists q, pes. split; [reflexivity|].
      split; [|exact Hpar]. apply Lold; [|exact Hq].
      intro E. rewrite E, HP in Hq. discriminate.
    - constructor; [|constructor]. exists p; eexists. split; [reflexivity|].
      split; [exact Lp | reflexivity]. }
  split; [reflexivity|].
  rewrite Hcount, Ec, Hkids, Ek. simpl. rewrite length_app, Nat.add_1_r. split; reflexivity.
Qed.

Lemma reachable_pages_inv (d : document) : reachable_pages d -> ids_ok d /\ pages_inv d.
Proof.
  induction 1 as [d H | d v _ [IH1 IH2] | d d' w h p _ [IH1 IH2] Hn].
  - split; [apply ids_ok_init | apply pages_inv_init]; exact H.
  - split; [apply ids_ok_register | apply pages_inv_register]; assumption.
  - destruct (new_page_step d w h IH1 IH2) as [d'' [p' [E [H1 [H2 _]]]]].
    rewrite Hn in E. injection E as <- <-. split; assumption.
Qed.

End PagesInvariant.

(** ** Identifier assignment *)

(** C7: in every document reached from construction by registrations and
    mutations of registered objects, the registered objects, in the order
    of the document's object list, hold the identifiers 1, 2, ..., N, and
    the counter [next_identifier] reads from is N. *)
Theorem identifiers_sequential (d : document) (H : reachable d) :
  map obj_id (objects d) = map (fun k => Some (Z.of_nat k)) (seq 1 (length (objects d))) /\
  _identifier d = Z.of_nat (length (objects d)).
Proof. exact (reachable_ids_ok d H). Qed.

Lemma identifiers_sequential_witness :
  reachable (fst (register doc0 (Stream "abc"))) /\
  map obj_id (objects (fst (register doc0 (Stream "abc")))) =
    map (fun k => Some (Z.of_nat k)) (seq 1 (length (objects (fst (register doc0 (Stream "abc")))))) /\
  _identifier (fst (register doc0 (Stream "abc"))) =
    Z.of_nat (length (objects (fst (register doc0 (Stream "abc"))))).
Proof.
  assert (H : reachable (fst (register doc0 (Stream "abc")))).
  { apply reach_register, reach_init. vm_compute. reflexivity. }
  split; [exact H | exact (identifiers_sequential _ H)].
Defined.

(** ** [Pages.new_page] *)

(** C10: in every document reached from construction by registrations and
    [new_page] calls, the Pages node's [Count] equals the length of its
    [Kids] array, each kid is the reference of a registered [Page] whose
    [Parent] is the reference of the Pages node, and a further [new_page]
    call succeeds, keeps all of this, and increases [Count] and the length
    of [Kids] by exactly one. *)
Theorem new_page_count_kids (d : document) (H : reachable_pages d) :
  pages_inv d /\
  forall w h, exists d' p,
    new_page d (pages d) w h = Ok (d', p) /\ pages_inv d' /\
    pages_count d' = option_map (fun c => c + 1) (pages_count d) /\
    option_map (@length pyobj) (pages_kids d') =
      option_map (fun ks => S (length ks)) (pages_kids d).
Proof.
  destruct (reachable_pages_inv d H) as [Hids Hinv]. split; [exact Hinv|].
  intros w h. destruct (new_page_step d w h Hids Hinv) as [d' [p [E [_ [H2 [_ [H3 H4]]]]]]].
  exists d', p. auto.
Qed.

Lemma new_page_count_kids_witness :
  reachable_pages doc0 /\ pages_count doc0 = Some 0 /\
  (pages_inv doc0 /\
   forall w h, exists d' p,
     new_page doc0 (pages doc0) w h = Ok (d', p) /\ pages_inv d' /\
     pages_count d' = option_map (fun c => c + 1) (pages_count doc0) /\
     option_map (@length pyobj) (pages_kids d') =
       option_map (fun ks => S (length ks)) (pages_kids doc0)).
Proof.
  assert (H : reachable_pages doc0) by (apply rp_init; vm_compute; reflexivity).
  split; [exact H | split; [vm_compute; reflexivity | exact (new_page_count_kids doc0 H)]].
Defined.

(** ** Byte offsets of the first write *)

Section Offsets.

Lemma sapp_assoc (a b c : string) : (a ++ b) ++ c = a ++ (b ++ c).
Proof. induction a as [|x a IH]; simpl; [reflexivity | rewrite IH; reflexivity]. Qed.

Lemma sapp_nil_r (a : string) : a ++ "" = a.
Proof. induction a as [|x a IH]; simpl; [reflexivity | rewrite IH; reflexivity]. Qed.

Lemma slength_app (a b : string) :
  String.length (a ++ b) = (String.length a + String.length b)%nat.
Proof. induction a as [|x a IH]; simpl; [reflexivity | rewrite IH; reflexivity]. Qed.

Lemma ascii7_app (a b : string) : ascii7 (a ++ b) = (ascii7 a && ascii7 b)%bool.
Proof.
  induction a as [|x a IH]; simpl; [reflexivity|].
  rewrite IH, Bool.andb_assoc. reflexivity.
Qed.

Lemma utf8_ascii7 (s : string) : ascii7 s = true -> utf8 s = s.
Proof.
  induction s as [|c s IH]; simpl; [reflexivity|].
  intro H. apply andb_prop in H as [H1 H2]. rewrite H1, IH by exact H2. reflexivity.
Qed.

Lemma digits_ascii7 (fuel : nat) (n : N) (acc : string) :
  ascii7 acc = true -> ascii7 (digits_fuel fuel n acc) = true.
Proof.
  revert n acc. induction fuel as [|f IH]; intros n acc H; simpl; [exact H|].
  assert (Hd : ascii7 (String (digit (n mod 10)) acc) = true).
  { simpl. unfold digit. rewrite N_ascii_embedding.
    - rewrite H, Bool.andb_true_r. apply N.ltb_lt.
      pose proof (N.mod_lt n 10 ltac:(discriminate)). lia.
    - pose proof (N.mod_lt n 10 ltac:(discriminate)). lia. }
  destruct (n <? 10)%N; [exact Hd | apply IH; exact Hd].
Qed.

Lemma Z_str_ascii7 (z : Z) : ascii7 (Z_str z) = true.
Proof.
  unfold Z_str, N_str. destruct (z <? 0).
  - rewrite ascii7_app. apply andb_true_intro. split; [reflexivity|].
    apply digits_ascii7; reflexivity.
  - apply digits_ascii7; reflexivity.
Qed.

Lemma write_objects_spec (objs : list pyobj) (xr xr' : xref) (f f' : string) :
  write_objects objs xr f = (xr', f', None) ->
  xobjects xr' = (xobjects xr ++ objs)%list /\
  exists addrs, addresses xr' = (addresses xr ++ addrs)%list /\
    length addrs = length objs /\
    (exists post, f' = f ++ post) /\
    forall k o a, nth_error objs k = Some o -> nth_error addrs k = Some a ->
      exists b pre post, indirect_bytes o = Ok b /\ f' = pre ++ b ++ post /\ tell pre = a.
Proof.
  revert xr f. induction objs as [|o objs IH]; intros xr f H; simpl in H.
  - injection H as <- <-. split; [rewrite app_nil_r; reflexivity|].
    exists []. split; [rewrite app_nil_r; reflexivity|]. split; [reflexivity|].
    split; [exists ""; rewrite sapp_nil_r; reflexivity|].
    intros [|k] o a Ho; discriminate.
  - destruct (indirect_bytes o) as [b|e] eqn:Eb; [|discriminate].
    apply IH in H as [Hobj [addrs [Haddr [Hlen [[post Hpost] Hnth]]]]].
    simpl in Hobj, Haddr. split; [rewrite Hobj, <- app_assoc; reflexivity|].
    exists (tell f :: addrs). split; [rewrite Haddr, <- app_assoc; reflexivity|].
    split; [simpl; rewrite Hlen; reflexivity|].
    split.
    + exists (b ++ nl ++ post). rewrite Hpost. unfold out. rewrite !sapp_assoc. reflexivity.
    + intros [|k] o' a Ho Ha; simpl in Ho, Ha.
      * injection Ho as <-. injection Ha as <-. exists b, f, (nl ++ post).
        split; [exact Eb|]. split; [|reflexivity].
        rewrite Hpost. unfold out. rewrite !sapp_assoc. reflexivity.
      * exact (Hnth k o' a Ho Ha).
Qed.

End Offsets.

(** C6: on the first write of a document (its [xref_table] still empty), if
    the write completes, the xref table lists the registered objects in
    registration order, one address each, and for each registered object the
    output holds, at the byte position recorded for it, the line
    ["{id} {generation} obj"] followed by a newline. *)
Theorem write_offsets_exact (d : document) (file : string) (d' : document)
  (output : string) (Hx : xref_table d = xref_empty)
  (Hw : write d file = (d', output, None)) :
  xobjects (xref_table d') = objects d /\
  length (addresses (xref_table d')) = length (objects d) /\
  forall k g i v a,
    nth_error (objects d) k = Some (Obj (Some (mk_attrs g (Some i))) v) ->
    nth_error (addresses (xref_table d')) k = Some a ->
    exists pre post,
      output = pre ++ (Z_str i ++ " " ++ Z_str g ++ " obj" ++ nl) ++ post /\
      tell pre = a.
Proof.
  unfold write in Hw. rewrite Hx in Hw.
  destruct (write_objects (objects d) xref_empty _) as [[xr f1] err] eqn:E.
  destruct err as [e|]; [discriminate|].
  destruct (xref_bytes xr) as [xb|e]; [|discriminate].
  destruct (bytes _) as [tb|e]; [|discriminate].
  injection Hw as <- <-.
  apply write_objects_spec in E as [Hobj [addrs [Haddr [Hlen [[post Hpost] Hnth]]]]].
  simpl in Hobj, Haddr. simpl.
  split; [exact Hobj|]. rewrite Haddr. split; [exact Hlen|].
  intros k g i v a Ho Ha.
  destruct (Hnth k _ a Ho Ha) as [b [pre [post' [Eb [Hf1 Ht]]]]].
  unfold indirect_bytes in Eb. cbn [Z_opt_str identifier generation] in Eb.
  apply bind_ok in Eb as [body [_ Eb]]. injection Eb as <-.
  rewrite utf8_ascii7 in Hf1.
  2:{ rewrite ascii7_app, Z_str_ascii7. simpl. rewrite ascii7_app, Z_str_ascii7.
      reflexivity. }
  exists pre. eexists. split; [|exact Ht].
  unfold out. rewrite Hf1. rewrite !sapp_assoc. reflexivity.
Qed.

Lemma write_offsets_exact_witness :
  xref_table doc0 = xref_empty /\
  write doc0 "" = (fst (fst (write doc0 "")), snd (fst (write doc0 "")), None) /\
  (xobjects (xref_table (fst (fst (write doc0 "")))) = objects doc0 /\
   length (addresses (xref_table (fst (fst (write doc0 ""))))) = length (objects doc0) /\
   forall k g i v a,
     nth_error (objects doc0) k = Some (Obj (Some (mk_attrs g (Some i))) v) ->
     nth_error (addresses (xref_table (fst (fst (write doc0 ""))))) k = Some a ->
     exists pre post,
       snd (fst (write doc0 "")) = pre ++ (Z_str i ++ " " ++ Z_str g ++ " obj" ++ nl) ++ post /\
       tell pre = a).
Proof.
  assert (Hx : xref_table doc0 = xref_empty) by (vm_compute; reflexivity).
  assert (Hw : write doc0 "" = (fst (fst (write doc0 "")), snd (fst (write doc0 "")), None))
    by (vm_compute; reflexivity).
  split; [exact Hx | split; [exact Hw | exact (write_offsets_exact _ _ _ _ Hx Hw)]].
Defined.

(** ** Fonts shared between pages *)

Section Fonts.

Lemma assoc_get_app_some {A : Type} (l : list (nat * A)) (k k' : nat) (x y : A) :
  assoc_get l k = Some y -> assoc_get (l ++ [(k', x)])%list k = Some y.
Proof.
  induction l as [|[k0 z] l IH]; simpl; [discriminate|].
  destruct (Nat.eqb k k0); auto.
Qed.

Lemma assoc_get_app_none {A : Type} (l : list (nat * A)) (k k' : nat) (x : A) :
  assoc_get l k = None -> assoc_get (l ++ [(k', x)])%list k = if Nat.eqb k k' then Some x else None.
Proof.
  induction l as [|[k0 z] l IH]; simpl; [reflexivity|].
  destruct (Nat.eqb k k0); [discriminate | auto].
Qed.

Lemma nth_error_list_set_same {A : Type} (l : list A) (p : nat) (x y : A) :
  nth_error l p = Some y -> nth_error (list_set l p x) p = Some x.
Proof.
  revert p. induction l as [|z l IH]; intros [|p]; simpl; try discriminate; auto.
Qed.

Lemma nth_error_list_set_other {A : Type} (l : list A) (p q : nat) (x : A) :
  p <> q -> nth_error (list_set l p x) q = nth_error l q.
Proof.
  revert p q. induction l as [|z l IH]; intros [|p] [|q] H; simpl; try reflexivity;
    try congruence.
  apply IH. congruence.
Qed.

Lemma length_reg_replace (l : list pyobj) (i : Z) (v : value) :
  length (reg_replace l i v) = length l.
Proof. unfold reg_replace. apply length_map. Qed.

(** [Document.register_font] on a core font: a cache hit returns the cached
    handle, a miss registers one [Font] dictionary under a fresh identifier. *)
Lemma register_font_ok (bd : bdoc) (f : font) :
  ids_ok (pdf_document bd) -> is_core f = true ->
  exists bd' r, register_font bd f = Ok (bd', r) /\ bpages bd' = bpages bd /\
    ids_ok (pdf_document bd') /\ assoc_get (fonts bd') (font_key f) = Some r /\
    (forall k r', assoc_get (fonts bd) k = Some r' -> assoc_get (fonts bd') k = Some r') /\
    (forall j v, reg_lookup (objects (pdf_document bd)) j = Some v ->
                 reg_lookup (objects (pdf_document bd')) j = Some v) /\
    ((assoc_get (fonts bd) (font_key f) = Some r /\ bd' = bd) \/
     (assoc_get (fonts bd) (font_key f) = None /\
      reg_lookup (objects (pdf_document bd)) r = None /\
      reg_lookup (objects (pdf_document bd')) r = Some (Font_value f) /\
      length (objects (pdf_document bd')) = S (length (objects (pdf_document bd))))).
Proof.
  intros Hids Hc. unfold register_font.
  destruct (assoc_get (fonts bd) (font_key f)) as [r|] eqn:E.
  - exists bd, r. split; [reflexivity|]. split; [reflexivity|].
    split; [exact Hids|]. split; [exact E|]. split; [auto|]. split; [auto|].
    left; auto.
  - rewrite Hc. set (pd := pdf_document bd) in *.
    pose proof (ids_ok_fresh pd Hids) as Hfr.
    unfold Font_new, register. cbn [fst snd].
    erewrite setitem_last; [| exact Hfr | reflexivity]. simpl bind.
    erewrite setitem_last; [| exact Hfr | reflexivity]. simpl bind.
    erewrite setitem_last; [| exact Hfr | reflexivity]. simpl bind.
    eexists. exists (_identifier pd + 1). split; [reflexivity|].
    cbn [pdf_document bpages fonts set_objects objects].
    split; [reflexivity|].
    split; [exact (ids_ok_register pd (Font_value f) Hids)|].
    split; [rewrite assoc_get_app_none, Nat.eqb_refl; auto|].
    split; [intros k r' H; apply assoc_get_app_some; exact H|].
    split; [intros j v H; apply reg_lookup_app_some; exact H|].
    right. split; [reflexivity|]. split; [exact Hfr|].
    split; [rewrite reg_lookup_app_none, Z.eqb_refl; [reflexivity | exact Hfr]|].
    rewrite length_app. simpl. lia.
Qed.

(** [page_rsc.setdefault('Font', ...)[name] = font_rsc.reference] on a page
    dictionary of the expected shape. *)
Lemma resources_add_font_ok (name : string) (r : Z) (v : value) :
  page_shape_ok v ->
  exists v', resources_add_font name r v = Ok v' /\ page_shape_ok v' /\
    value_font_entry v' name = Some (Reference r 0) /\
    (forall n, n <> name -> value_font_entry v' n = value_font_entry v n).
Proof.
  intro Hs. destruct v as [| | | | | |c es| |]; try contradiction.
  unfold page_shape_ok in Hs.
  destruct (od_get es "Resources") as [o|] eqn:Er; [|contradiction].
  destruct o as [ri rg|a w]; [contradiction|].
  destruct w as [| | | | | |c' res| |]; try contradiction.
  destruct (od_get res "Font") as [o2|] eqn:Ef.
  - destruct o2 as [ri rg|fa w2]; [contradiction|].
    destruct w2 as [| | | | | |fc fes| |]; try contradiction.
    eexists. split; [unfold resources_add_font; rewrite Er, Ef; reflexivity|].
    unfold page_shape_ok, value_font_entry. rewrite !od_get_set_same.
    split; [exact I|]. split; [reflexivity|].
    intros n Hn. rewrite Er, Ef. apply od_get_set_other. exact Hn.
  - eexists. split; [unfold resources_add_font; rewrite Er, Ef; reflexivity|].
    unfold page_shape_ok, value_font_entry. rewrite !od_get_set_same.
    split; [exact I|]. split; [reflexivity|].
    intros n Hn. rewrite Er, Ef. apply od_get_set_other. exact Hn.
Qed.

(** [Page.register_font] when the page already has an alias for the font. *)
Lemma page_register_font_hit (bd : bdoc) (p : nat) (pg : bpage) (f : font) (name : string) :
  nth_error (bpages bd) p = Some pg -> assoc_get (font_names pg) (font_key f) = Some name ->
  page_register_font bd p f = Ok (bd, name).
Proof. intros H1 H2. unfold page_register_font. rewrite H1, H2. reflexivity. Qed.

(** [Page.register_font] when the page has no alias for the font yet. *)
Lemma page_register_font_miss (bd : bdoc) (p : nat) (pg : bpage) (f : font) :
  ids_ok (pdf_document bd) -> nth_error (bpages bd) p = Some pg ->
  assoc_get (font_names pg) (font_key f) = None ->
  page_ok (pdf_document bd) (pdf_page pg) -> is_core f = true ->
  let name := ("F" ++ Z_str (font_number pg))%string in
  exists bd' r v', page_register_font bd p f = Ok (bd', name) /\
    ids_ok (pdf_document bd') /\
    bpages bd' = list_set (bpages bd) p
                   (mk_bpage (pdf_page pg) (canvas pg) (font_number pg + 1)
                             (font_names pg ++ [(font_key f, name)])) /\
    assoc_get (fonts bd') (font_key f) = Some r /\
    (forall k r', assoc_get (fonts bd) k = Some r' -> assoc_get (fonts bd') k = Some r') /\
    reg_lookup (objects (pdf_document bd')) (pdf_page pg) = Some v' /\ page_shape_ok v' /\
    value_font_entry v' name = Some (Reference r 0) /\
    (forall j v, j <> pdf_page pg -> reg_lookup (objects (pdf_document bd)) j = Some v ->
                 reg_lookup (objects (pdf_document bd')) j = Some v) /\
    ((assoc_get (fonts bd) (font_key f) = Some r /\
      length (objects (pdf_document bd')) = length (objects (pdf_document bd))) \/
     (assoc_get (fonts bd) (font_key f) = None /\
      reg_lookup (objects (pdf_document bd')) r = Some (Font_value f) /\
      length (objects (pdf_document bd')) = S (length (objects (pdf_document bd))))).
Proof.
  intros Hids Hp Hn [v [Hv Hs]] Hc name.
  destruct (register_font_ok bd f Hids Hc)
    as [bd1 [r [Hr [Hpg1 [Hids1 [Hf1 [Hfm [Hlk Hcase]]]]]]]].
  destruct (resources_add_font_ok name r v Hs) as [v' [Ha [Hs' [He Hoth]]]].
  pose proof (Hlk _ _ Hv) as Hv1.
  pose proof (modify_ok _ _ _ v v' Hv1 Ha) as Hm.
  exists (mk_bdoc (set_objects (pdf_document bd1)
                     (reg_replace (objects (pdf_document bd1)) (pdf_page pg) v'))
                  (list_set (bpages bd1) p
                     (mk_bpage (pdf_page pg) (canvas pg) (font_number pg + 1)
                               (font_names pg ++ [(font_key f, name)])))
                  (fonts bd1)), r, v'.
  split.
  { unfold page_register_font. rewrite Hp, Hn, Hr. simpl bind. fold name.
    change (String "F" (Z_str (font_number pg))) with name. rewrite Hm. reflexivity. }
  cbn [pdf_document bpages fonts set_objects objects].
  split; [exact (ids_ok_modify _ _ _ _ Hids1 Hm)|].
  split; [rewrite Hpg1; reflexivity|].
  split; [exact Hf1|]. split; [exact Hfm|].
  split; [rewrite reg_lookup_replace, Z.eqb_refl, Hv1; reflexivity|].
  split; [exact Hs'|]. split; [exact He|].
  split.
  { intros j w Hj Hw. rewrite reg_lookup_replace.
    destruct (Z.eqb_spec j (pdf_page pg)); [contradiction|]. apply Hlk, Hw. }
  rewrite length_reg_replace.
  destruct Hcase as [[H1 ->] | [H1 [H2 [H3 H4]]]]; [left; auto | right].
  split; [exact H1|]. split; [|exact H4].
  rewrite reg_lookup_replace.
  destruct (Z.eqb_spec r (pdf_page pg)) as [->|]; [congruence | exact H3].
Qed.

End Fonts.

(** C9: on two fresh pages of one backend document with distinct page
    dictionaries, registering the same core font [f] on both yields the alias
    [F1] on each page, and both pages' [Resources]/[Font] entries [F1] are the
    reference of the one [Font] object cached in [fonts]: the registry grows by
    exactly one object if [f] was not cached before, by none otherwise, and in
    the first case that object is [f]'s [Font] dictionary.  Registering [f]
    again on either page returns the cached alias and changes nothing, and a
    second core font on the first page gets [F2]. *)
Theorem shared_font_page_aliases (bd : bdoc) (p1 p2 : nat) (pg1 pg2 : bpage) (f f' : font)
  (Hids : ids_ok (pdf_document bd))
  (Hp1 : nth_error (bpages bd) p1 = Some pg1) (Hp2 : nth_error (bpages bd) p2 = Some pg2)
  (Hh : pdf_page pg1 <> pdf_page pg2)
  (Hf1 : fresh_bpage pg1) (Hf2 : fresh_bpage pg2)
  (Ho1 : page_ok (pdf_document bd) (pdf_page pg1))
  (Ho2 : page_ok (pdf_document bd) (pdf_page pg2))
  (Hc : is_core f = true) (Hc' : is_core f' = true) (Hk : font_key f' <> font_key f) :
  exists bd1 bd2 r,
    page_register_font bd p1 f = Ok (bd1, "F1") /\
    page_register_font bd1 p2 f = Ok (bd2, "F1") /\
    page_register_font bd2 p1 f = Ok (bd2, "F1") /\
    page_register_font bd2 p2 f = Ok (bd2, "F1") /\
    assoc_get (fonts bd2) (font_key f) = Some r /\
    page_font_entry bd2 p1 "F1" = Some (Reference r 0) /\
    page_font_entry bd2 p2 "F1" = Some (Reference r 0) /\
    match assoc_get (fonts bd) (font_key f) with
    | Some r0 => r = r0 /\
        length (objects (pdf_document bd2)) = length (objects (pdf_document bd))
    | None => reg_lookup (objects (pdf_document bd2)) r = Some (Font_value f) /\
        length (objects (pdf_document bd2)) = S (length (objects (pdf_document bd)))
    end /\
    exists bd3, page_register_font bd2 p1 f' = Ok (bd3, "F2").
Proof.
  destruct Hf1 as [Hnum1 Hnm1]. destruct Hf2 as [Hnum2 Hnm2].
  assert (Hp : p1 <> p2) by (intros ->; congruence).
  (* first page *)
  destruct (page_register_font_miss bd p1 pg1 f Hids Hp1 ltac:(rewrite Hnm1; reflexivity) Ho1 Hc)
    as [bd1 [r1 [v1 [R1 [Hids1 [Hb1 [Hr1 [Hfm1 [Hv1 [Hs1 [He1 [Hlk1 Hcase1]]]]]]]]]]]].
  rewrite Hnum1 in R1, Hb1, He1. cbn in R1, Hb1, He1.
  (* second page *)
  assert (Hq2 : nth_error (bpages bd1) p2 = Some pg2)
    by (rewrite Hb1, nth_error_list_set_other by exact Hp; exact Hp2).
  assert (Ho2' : page_ok (pdf_document bd1) (pdf_page pg2)).
  { destruct Ho2 as [w [Hw Hsw]]. exists w. split; [|exact Hsw].
    apply Hlk1; [congruence | exact Hw]. }
  destruct (page_register_font_miss bd1 p2 pg2 f Hids1 Hq2 ltac:(rewrite Hnm2; reflexivity) Ho2' Hc)
    as [bd2 [r2 [v2 [R2 [Hids2 [Hb2 [Hr2 [Hfm2 [Hv2 [Hs2 [He2 [Hlk2 Hcase2]]]]]]]]]]]].
  rewrite Hnum2 in R2, Hb2, He2. cbn in R2, Hb2, He2.
  assert (E12 : r2 = r1).
  { destruct Hcase2 as [[H _] | [H _]]; congruence. }
  subst r2.
  assert (Hlen2 : length (objects (pdf_document bd2)) = length (objects (pdf_document bd1))).
  { destruct Hcase2 as [[_ H] | [H _]]; [exact H | congruence]. }
  set (pg1' := mk_bpage (pdf_page pg1) (canvas pg1) 2 [(font_key f, "F1")]).
  set (pg2' := mk_bpage (pdf_page pg2) (canvas pg2) 2 [(font_key f, "F1")]).
  assert (Hq1 : nth_error (bpages bd2) p1 = Some pg1').
  { rewrite Hb2, nth_error_list_set_other by congruence. rewrite Hb1.
    rewrite Hnm1 in *. eapply nth_error_list_set_same. exact Hp1. }
  assert (Hq2' : nth_error (bpages bd2) p2 = Some pg2').
  { rewrite Hb2. rewrite Hnm2 in *. eapply nth_error_list_set_same. exact Hq2. }
  assert (Hself : assoc_get [(font_key f, "F1")] (font_key f) = Some "F1")
    by (simpl; rewrite Nat.eqb_refl; reflexivity).
  assert (Hv1' : reg_lookup (objects (pdf_document bd2)) (pdf_page pg1) = Some v1)
    by (apply Hlk2; [exact Hh | exact Hv1]).
  exists bd1, bd2, r1.
  split; [exact R1|]. split; [exact R2|].
  split; [exact (page_register_font_hit bd2 p1 pg1' f "F1" Hq1 Hself)|].
  split; [exact (page_register_font_hit bd2 p2 pg2' f "F1" Hq2' Hself)|].
  split; [exact Hr2|].
  split; [unfold page_font_entry; rewrite Hq1; cbn [pg1' pdf_page]; rewrite Hv1'; exact He1|].
  split; [unfold page_font_entry; rewrite Hq2'; cbn [pg2' pdf_page]; rewrite Hv2; exact He2|].
  split.
  { destruct Hcase1 as [[H1 H2] | [H1 [H2 H3]]]; rewrite H1.
    - split; [reflexivity | congruence].
    - split; [|congruence]. apply Hlk2; [|exact H2].
      intro E. rewrite E in H2. destruct Ho2' as [w [Hw Hsw]].
      rewrite H2 in Hw. injection Hw as <-. exact Hsw. }
  (* a second font on the first page *)
  assert (Hn' : assoc_get (font_names pg1') (font_key f') = None).
  { simpl. destruct (Nat.eqb_spec (font_key f') (font_key f)); [contradiction | reflexivity]. }
  destruct (page_register_font_miss bd2 p1 pg1' f' Hids2 Hq1 Hn'
              ltac:(exists v1; split; [exact Hv1' | exact Hs1]) Hc')
    as [bd3 [r3 [v3 [R3 _]]]].
  exists bd3. exact R3.
Qed.

Lemma shared_font_page_aliases_witness :
  ids_ok (pdf_document bdoc2) /\
  exists pg1 pg2,
    nth_error (bpages bdoc2) 0 = Some pg1 /\ nth_error (bpages bdoc2) 1 = Some pg2 /\
    pdf_page pg1 <> pdf_page pg2 /\ fresh_bpage pg1 /\ fresh_bpage pg2 /\
    page_ok (pdf_document bdoc2) (pdf_page pg1) /\ page_ok (pdf_document bdoc2) (pdf_page pg2) /\
    exists bd1 bd2 r,
      page_register_font bdoc2 0 font_a = Ok (bd1, "F1") /\
      page_register_font bd1 1 font_a = Ok (bd2, "F1") /\
      page_register_font bd2 0 font_a = Ok (bd2, "F1") /\
      page_register_font bd2 1 font_a = Ok (bd2, "F1") /\
      assoc_get (fonts bd2) (font_key font_a) = Some r /\
      page_font_entry bd2 0 "F1" = Some (Reference r 0) /\
      page_font_entry bd2 1 "F1" = Some (Reference r 0) /\
      match assoc_get (fonts bdoc2) (font_key font_a) with
      | Some r0 => r = r0 /\
          length (objects (pdf_document bd2)) = length (objects (pdf_document bdoc2))
      | None => reg_lookup (objects (pdf_document bd2)) r = Some (Font_value font_a) /\
          length (objects (pdf_document bd2)) = S (length (objects (pdf_document bdoc2)))
      end /\
      exists bd3, page_register_font bd2 0 font_b = Ok (bd3, "F2").
Proof.
  assert (Hids : ids_ok (pdf_document bdoc2)) by (split; vm_compute; reflexivity).
  split; [exact Hids|].
  destruct (nth_error (bpages bdoc2) 0) as [pg1|] eqn:E1; [|vm_compute in E1; discriminate].
  destruct (nth_error (bpages bdoc2) 1) as [pg2|] eqn:E2; [|vm_compute in E2; discriminate].
  assert (Hh : pdf_page pg1 <> pdf_page pg2)
    by (vm_compute in E1, E2; injection E1 as <-; injection E2 as <-; discriminate).
  assert (Hf1 : fresh_bpage pg1)
    by (vm_compute in E1; injection E1 as <-; split; reflexivity).
  assert (Hf2 : fresh_bpage pg2)
    by (vm_compute in E2; injection E2 as <-; split; reflexivity).
  assert (Ho1 : page_ok (pdf_document bdoc2) (pdf_page pg1))
    by (vm_compute in E1; injection E1 as <-; eexists; split; [vm_compute; reflexivity | exact I]).
  assert (Ho2 : page_ok (pdf_document bdoc2) (pdf_page pg2))
    by (vm_compute in E2; injection E2 as <-; eexists; split; [vm_compute; reflexivity | exact I]).
  exists pg1, pg2.
  do 7 (split; [first [assumption | reflexivity]|]).
  exact (shared_font_page_aliases bdoc2 0 1 pg1 pg2 font_a font_b Hids E1 E2 Hh Hf1 Hf2 Ho1 Ho2
           eq_refl eq_refl ltac:(discriminate)).
Defined.

(** ** Literal strings *)

Section Escapes.

Lemma replace_char_app (c : ascii) (new a b : string) :
  replace_char c new (a ++ b) = replace_char c new a ++ replace_char c new b.
Proof.
  induction a as [|x a IH]; simpl; [reflexivity|].
  destruct (Ascii.eqb x c); rewrite IH; [symmetry; apply sapp_assoc | reflexivity].
Qed.

Lemma replace_char_absent (c : ascii) (new s : string) :
  str_forall (fun x => negb (Ascii.eqb x c)) s = true -> replace_char c new s = s.
Proof.
  induction s as [|x s IH]; simpl; [reflexivity|].
  intro H. apply andb_prop in H as [H1 H2]. apply negb_true_iff in H1.
  rewrite H1, IH by exact H2. reflexivity.
Qed.

Lemma str_forall_impl (p q : ascii -> bool) (s : string) :
  (forall c, p c = true -> q c = true) -> str_forall p s = true -> str_forall q s = true.
Proof.
  intro Hpq. induction s as [|x s IH]; simpl; [reflexivity|].
  intro H. apply andb_prop in H as [H1 H2]. rewrite Hpq, IH; auto.
Qed.

Lemma esc_chain (s : string) :
  replace_char ")" (bsl ++ ")") (replace_char "(" (bsl ++ "(") (replace_char BSL (bsl ++ bsl) s))
  = esc_all s.
Proof.
  induction s as [|c s IH]; [reflexivity|].
  cbn [replace_char esc_all]. unfold esc_char.
  destruct (Ascii.eqb c BSL) eqn:E1.
  - rewrite !replace_char_app, IH.
    change (replace_char ")" (bsl ++ ")") (replace_char "(" (bsl ++ "(") (bsl ++ bsl)))
      with (bsl ++ bsl). reflexivity.
  - cbn [replace_char].
    destruct (Ascii.eqb c "(") eqn:E2.
    + rewrite !replace_char_app, IH.
      change (replace_char ")" (bsl ++ ")") (bsl ++ "(")) with (bsl ++ "("). reflexivity.
    + cbn [replace_char]. destruct (Ascii.eqb c ")") eqn:E3.
      * rewrite IH. reflexivity.
      * rewrite IH. reflexivity.
Qed.

Lemma drop_last_app (t : string) : drop_last (t ++ ")") = Some t.
Proof.
  induction t as [|c t IH]; [reflexivity|].
  cbn [append]. change (drop_last (String c (t ++ ")")) = Some (String c t)).
  destruct t as [|c' t']; [reflexivity|].
  cbn [drop_last]. cbn [append] in IH |- *. rewrite IH. reflexivity.
Qed.

Lemma ascii7_esc_all (s : string) : ascii7 s = true -> ascii7 (esc_all s) = true.
Proof.
  induction s as [|c s IH]; [reflexivity|].
  cbn [ascii7 esc_all]. intro H. apply andb_prop in H as [H1 H2].
  rewrite ascii7_app, IH by exact H2. rewrite Bool.andb_true_r.
  unfold esc_char. destruct (Ascii.eqb c BSL); [reflexivity|].
  destruct (Ascii.eqb c "("); [reflexivity|]. destruct (Ascii.eqb c ")"); [reflexivity|].
  cbn. rewrite H1. reflexivity.
Qed.

Lemma unescape_esc_all (s : string) :
  str_forall (fun x => negb (Ascii.eqb x CR)) s = true -> pdf_unescape (esc_all s) = s.
Proof.
  induction s as [|c s IH]; [reflexivity|].
  cbn [str_forall esc_all]. intro H. apply andb_prop in H as [H1 H2].
  apply negb_true_iff in H1. unfold esc_char.
  destruct (Ascii.eqb c BSL) eqn:E1.
  - apply Ascii.eqb_eq in E1. subst c. cbn. rewrite IH by exact H2. reflexivity.
  - destruct (Ascii.eqb c "(") eqn:E2.
    + apply Ascii.eqb_eq in E2. subst c. cbn. rewrite IH by exact H2. reflexivity.
    + destruct (Ascii.eqb c ")") eqn:E3.
      * apply Ascii.eqb_eq in E3. subst c. cbn. rewrite IH by exact H2. reflexivity.
      * cbn [append pdf_unescape]. rewrite E1, H1, IH by exact H2. reflexivity.
Qed.

(** X1: [String._bytes] of a 7-bit string without newline, carriage
    return, tab, backspace or form feed is a literal string that a PDF
    reader reads back as the original string. *)

Theorem string_escape_roundtrip (s : string)
  (Ha : ascii7 s = true) (Hn : no_named_escape s = true) :
  pdf_read_literal (string_escape s) = Some s.
Proof.
  assert (Hc : forall d, Ascii.eqb d LF = true \/ Ascii.eqb d CR = true \/ Ascii.eqb d TAB = true
                         \/ Ascii.eqb d BS = true \/ Ascii.eqb d FF = true ->
               str_forall (fun x => negb (Ascii.eqb x d)) s = true).
  { intros d Hd. refine (str_forall_impl _ _ s _ Hn). intros x Hx.
    apply negb_true_iff. apply negb_true_iff in Hx.
    destruct (Ascii.eqb_spec x d) as [->|]; [|reflexivity].
    destruct Hd as [E|[E|[E|[E|E]]]]; rewrite E in Hx;
      rewrite ?Bool.orb_true_r in Hx; discriminate. }
  unfold string_escape.
  rewrite (replace_char_absent LF) by (apply Hc; left; apply Ascii.eqb_refl).
  rewrite (replace_char_absent CR) by (apply Hc; right; left; apply Ascii.eqb_refl).
  rewrite (replace_char_absent TAB) by (apply Hc; right; right; left; apply Ascii.eqb_refl).
  rewrite (replace_char_absent BS) by (apply Hc; right; right; right; left; apply Ascii.eqb_refl).
  rewrite (replace_char_absent FF) by (apply Hc; right; right; right; right; apply Ascii.eqb_refl).
  rewrite esc_chain.
  rewrite utf8_ascii7.
  2:{ change ("(" ++ esc_all s ++ ")") with (String "(" (esc_all s ++ ")")).
      cbn [ascii7]. rewrite ascii7_app, ascii7_esc_all by exact Ha. reflexivity. }
  change ("(" ++ esc_all s ++ ")") with (String "(" (esc_all s ++ ")")).
  unfold pdf_read_literal. cbn [Ascii.eqb]. simpl Ascii.eqb.
  rewrite drop_last_app. cbn [option_map].
  rewrite unescape_esc_all; [reflexivity|].
  apply Hc. right; left; apply Ascii.eqb_refl.
Qed.

Lemma string_escape_roundtrip_witness :
  ascii7 ("a(b)" ++ bsl ++ "c") = true /\ no_named_escape ("a(b)" ++ bsl ++ "c") = true /\
  pdf_read_literal (string_escape ("a(b)" ++ bsl ++ "c")) = Some ("a(b)" ++ bsl ++ "c").
Proof.
  split; [reflexivity|]. split; [reflexivity|].
  apply string_escape_roundtrip; reflexivity.
Defined.

Lemma glyph_read_ok_all : forallb glyph_read_ok (map Z.of_nat (seq 0 128)) = true.
Proof. vm_compute. reflexivity. Qed.

(** X2: the literal [show_glyphs] emits for a glyph whose code is 0..127
    reads back as the one character of that code, except code 13 (a bare
    carriage return), which a reader takes as an end of line. *)

Theorem glyph_literal_read_back (code : Z) (H : 0 <= code <= 127) :
  glyph_read_back code = Some (if code =? 13 then nl else chr (Z.to_N code)).
Proof.
  pose proof glyph_read_ok_all as A. rewrite forallb_forall in A.
  specialize (A code). unfold glyph_read_ok in A.
  destruct (glyph_read_back code) as [s|].
  - apply String.eqb_eq in A; [congruence|].
    apply in_map_iff. exists (Z.to_nat code). split; [lia|]. apply in_seq. lia.
  - discriminate A. apply in_map_iff. exists (Z.to_nat code). split; [lia|]. apply in_seq. lia.
Qed.

Lemma glyph_literal_read_back_witness :
  (0 <= 40 <= 127) /\ glyph_read_back 40 = Some "(".
Proof. split; [lia | apply (glyph_literal_read_back 40); lia]. Defined.

End Escapes.

(** ** The cross-reference table *)

Section XRefFormat.

Lemma digits_fuel_length (fuel : nat) (n : N) (acc : string) (k : nat) :
  (n < 10 ^ N.of_nat k)%N -> (1 <= k)%nat ->
  (String.length (digits_fuel fuel n acc) <= k + String.length acc)%nat.
Proof.
  revert n acc k. induction fuel as [|f IH]; intros n acc k Hn Hk; cbn [digits_fuel]; [lia|].
  destruct (N.ltb_spec n 10).
  - cbn [String.length]. lia.
  - destruct k as [|k]; [lia|]. destruct k as [|k].
    + simpl in Hn. lia.
    + eapply Nat.le_trans.
      * apply (IH (n / 10)%N _ (S k)); [|lia].
        apply N.Div0.div_lt_upper_bound.
        rewrite Nat2N.inj_succ, N.pow_succ_r' in Hn. exact Hn.
      * cbn [String.length]. lia.
Qed.

Lemma N_str_length (n : N) (k : nat) :
  (n < 10 ^ N.of_nat k)%N -> (1 <= k)%nat -> (String.length (N_str n) <= k)%nat.
Proof.
  intros H1 H2. unfold N_str.
  pose proof (digits_fuel_length (S (N.size_nat n)) n "" k H1 H2) as H. cbn [String.length] in H. lia.
Qed.

Lemma zeros_length (n : nat) : String.length (zeros n) = n.
Proof. induction n as [|n IH]; simpl; [reflexivity | rewrite IH; reflexivity]. Qed.

Lemma format_0d_length (w : nat) (z : Z) :
  (1 <= w)%nat -> 0 <= z < 10 ^ Z.of_nat w -> String.length (format_0d w z) = w.
Proof.
  intros Hw Hz. unfold format_0d. destruct (Z.ltb_spec z 0); [lia|].
  unfold pad_left0. rewrite slength_app, zeros_length.
  assert (String.length (N_str (Z.to_N z)) <= w)%nat; [|lia].
  apply N_str_length; [|exact Hw].
  rewrite <- (N2Z.id (10 ^ N.of_nat w)).
  apply N2Z.inj_lt. rewrite N2Z.inj_pow, Z2N.id by lia. rewrite nat_N_Z. lia.
Qed.

Lemma zeros_ascii7 (n : nat) : ascii7 (zeros n) = true.
Proof. induction n as [|n IH]; simpl; [reflexivity | exact IH]. Qed.

Lemma format_0d_ascii7 (w : nat) (z : Z) : ascii7 (format_0d w z) = true.
Proof.
  unfold format_0d, pad_left0, N_str.
  destruct (z <? 0); rewrite ?ascii7_app, zeros_ascii7, digits_ascii7 by reflexivity;
    reflexivity.
Qed.

(** X3: when every object of the table has a generation below 10^5 and
    every address is below 10^10, [XRefTable.bytes] is the header
    ["xref\n0 n+1\n0000000000 65535 f "] followed by one entry per object,
    each exactly 20 bytes long. *)

Theorem xref_entries_20_bytes (xr : xref)
  (Hok : Forall2 (fun o a => exists g, obj_generation o = Ok g /\ 0 <= g < 10 ^ 5 /\
                                      0 <= a < 10 ^ 10)
                 (xobjects xr) (addresses xr)) :
  exists entries,
    xref_bytes xr = Ok ("xref" ++ nl ++ "0 " ++ Z_str (Z.of_nat (length (xobjects xr)) + 1)
                        ++ nl ++ "0000000000 65535 f " ++ fold_right append "" entries) /\
    length entries = length (xobjects xr) /\
    Forall (fun e => String.length e = 20%nat) entries.
Proof.
  unfold xref_bytes.
  match goal with |- context [bind (?F (combine _ _))] => set (lines := F) end.
  assert (Hl : forall L, Forall (fun '(o, a) => exists g, obj_generation o = Ok g /\
                                      0 <= g < 10 ^ 5 /\ 0 <= a < 10 ^ 10) L ->
            exists es, lines L = Ok (fold_right append "" es) /\ length es = length L /\
              Forall (fun e => String.length e = 20%nat) es /\
              ascii7 (fold_right append "" es) = true).
  { induction 1 as [|[o a] L [g [Hg [Hg1 Ha]]] _ [es [E [Hn [Hf H7]]]]].
    - exists []. repeat split; constructor.
    - exists ((nl ++ format_0d 10 a ++ " " ++ format_0d 5 g ++ " n ") :: es).
      cbn [lines fold_right]. rewrite Hg. cbn [bind]. rewrite E. cbn [bind].
      split; [rewrite !sapp_assoc; reflexivity|].
      split; [simpl; rewrite Hn; reflexivity|].
      split.
      + constructor; [|exact Hf].
        rewrite !slength_app, !format_0d_length by (lia || (simpl; lia)). reflexivity.
      + rewrite !ascii7_app, !format_0d_ascii7, H7. reflexivity. }
  assert (HF : Forall (fun '(o, a) => exists g, obj_generation o = Ok g /\
                                      0 <= g < 10 ^ 5 /\ 0 <= a < 10 ^ 10)
                      (combine (xobjects xr) (addresses xr))).
  { clear Hl lines. induction Hok as [|o a os as_ H _ IH]; simpl; constructor; assumption. }
  destruct (Hl _ HF) as [es [E [Hn [Hf H7]]]].
  exists es. rewrite E. cbn [bind].
  split.
  - rewrite utf8_ascii7; [reflexivity|].
    rewrite !ascii7_app, Z_str_ascii7, H7. reflexivity.
  - split; [|exact Hf]. rewrite Hn, length_combine.
    apply Forall2_length in Hok. rewrite Hok. apply Nat.min_id.
Qed.

Lemma xref_entries_20_bytes_witness :
  Forall2 (fun o a => exists g, obj_generation o = Ok g /\ 0 <= g < 10 ^ 5 /\ 0 <= a < 10 ^ 10)
          (objects doc0) [15; 74] /\
  exists entries,
    xref_bytes (mk_xref (objects doc0) [15; 74]) =
      Ok ("xref" ++ nl ++ "0 " ++ Z_str (Z.of_nat (length (objects doc0)) + 1)
          ++ nl ++ "0000000000 65535 f " ++ fold_right append "" entries) /\
    length entries = length (objects doc0) /\
    Forall (fun e => String.length e = 20%nat) entries.
Proof.
  assert (H : Forall2 (fun o a => exists g, obj_generation o = Ok g /\ 0 <= g < 10 ^ 5 /\
                                            0 <= a < 10 ^ 10) (objects doc0) [15; 74]).
  { assert (E : objects doc0 = ltac:(let x := eval vm_compute in (objects doc0) in exact x))
      by (vm_compute; reflexivity).
    rewrite E. repeat (apply Forall2_cons; [eexists; split; [reflexivity|];
      split; split; first [apply Z.leb_le | apply Z.ltb_lt]; reflexivity |]).
    apply Forall2_nil. }
  split; [exact H | exact (xref_entries_20_bytes (mk_xref (objects doc0) [15; 74]) H)].
Defined.

End XRefFormat.

(** ** The layout of [Document.write] *)

Section WriteLayout.


(** X4: [Document.write] only appends to the file: whatever it raises,
    the file afterwards starts with its contents before the call. *)


Lemma trailer_bytes (n c : Z) :
  bytes (direct (Dictionary PlainDict [("Size", direct (Integer n)); ("Root", Reference c 0)]))
  = Ok ("<< /Size " ++ Z_str n ++ " /Root " ++ Z_str c ++ " 0 R >>").
Proof.
  cbn. unfold reference_bytes. rewrite !utf8_ascii7.
  - repeat (rewrite !sapp_assoc; cbn [append]). reflexivity.
  - rewrite !ascii7_app, !Z_str_ascii7. reflexivity.
  - apply Z_str_ascii7.
Qed.

(** X5: a [Document.write] that raises nothing ends with the
    cross-reference table, ["trailer"], the dictionary
    [<< /Size n /Root c 0 R >>] with n the table's length and c the catalog,
    ["startxref"], the offset at which the table starts, and ["%%EOF"], each
    on its own line; the file starts with the header
    ["%PDF-1.4"] and the binary marker. *)



End WriteLayout.

(** ** Serialisation never fails on writable objects *)

Section Serialization.

Lemma value_bytes_total : forall v : value,
  value_serializable v = true -> exists s, _bytes v = Ok s.
Proof.
  fix G 1 with (F (o : pyobj) {struct o} : serializable o = true -> exists s, bytes o = Ok s).
  - intro v. destruct v as [b|z|r|s|n|items|c es|pl|]; cbn [value_serializable _bytes]; intro H;
      try (eexists; reflexivity).
    + assert (Gi : exists bs, (fix go (l : list pyobj) : result (list string) :=
                     match l with
                     | [] => Ok []
                     | x :: r => let* b := bytes x in let* bs := go r in Ok (b :: bs)
                     end) items = Ok bs).
      { revert H. refine ((fix go (l : list pyobj) : _ := match l with [] => _ | x :: r => _ end) items).
        - intros _. eexists; reflexivity.
        - intro H. apply andb_prop in H as [H1 H2].
          destruct (F x H1) as [b Hb]. destruct (go r H2) as [bs Hbs].
          exists (b :: bs). cbn. rewrite Hb. cbn [bind]. rewrite Hbs. reflexivity. }
      destruct Gi as [bs Gi]. rewrite Gi. eexists; reflexivity.
    + assert (Gi : exists bs, (fix go (l : list (string * pyobj)) : result (list string) :=
                     match l with
                     | [] => Ok []
                     | (k, x) :: r =>
                         let* b := bytes x in let* bs := go r in
                         Ok ((utf8 ("/" ++ k) ++ " " ++ b) :: bs)
                     end) es = Ok bs).
      { revert H. refine ((fix go (l : list (string * pyobj)) : _ :=
                             match l with [] => _ | (k, x) :: r => _ end) es).
        - intros _. eexists; reflexivity.
        - intro H. apply andb_prop in H as [H1 H2].
          destruct (F x H1) as [b Hb]. destruct (go r H2) as [bs Hbs].
          eexists. cbv beta iota fix. rewrite Hb. cbn [bind]. rewrite Hbs. reflexivity. }
      destruct Gi as [bs Gi]. rewrite Gi. eexists; reflexivity.
  - intro o. destruct o as [i g | [a|] v]; cbn [serializable bytes]; intro H.
    + eexists; reflexivity.
    + destruct (identifier a); [eexists; reflexivity | exact (G v H)].
    + discriminate.
Qed.

Lemma write_objects_total (objs : list pyobj) (xr : xref) (f : string) :
  Forall (fun o => registry_ok o = true) objs ->
  exists xr' f', write_objects objs xr f = (xr', f', None) /\
    xobjects xr' = (xobjects xr ++ objs)%list.
Proof.
  revert xr f. induction objs as [|o objs IH]; intros xr f H.
  - exists xr, f. split; [reflexivity | symmetry; apply app_nil_r].
  - inversion H as [|? ? Ho Hr]; subst.
    destruct o as [i g | [a|] v]; try discriminate.
    destruct (value_bytes_total v Ho) as [b Hb].
    cbn [write_objects]. unfold indirect_bytes. rewrite Hb. cbn [bind].
    match goal with
    | |- exists _ _, write_objects _ ?X ?Y = _ /\ _ =>
        destruct (IH X Y Hr) as [xr' [f' [E Hx]]]
    end.
    exists xr', f'. split; [exact E|]. rewrite Hx. simpl. rewrite <- app_assoc. reflexivity.
Qed.

Lemma xref_bytes_total (xr : xref) :
  Forall (fun o => generation_ok o = true) (xobjects xr) -> exists s, xref_bytes xr = Ok s.
Proof.
  intro H. unfold xref_bytes.
  match goal with |- context [bind (?F (combine _ _))] => set (lines := F) end.
  assert (G : forall L, Forall (fun o => generation_ok o = true) (map fst L) ->
                exists s, lines L = Ok s).
  { induction L as [|[o a] L IH]; intro HL; [eexists; reflexivity|].
    inversion HL as [|? ? Ho Hr]; subst. destruct (IH Hr) as [s Hs].
    destruct o as [i g | [at_|] v]; try discriminate;
      eexists; cbn [lines]; rewrite Hs; reflexivity. }
  destruct (G (combine (xobjects xr) (addresses xr))) as [s Hs].
  { apply Forall_forall. intros o Hin. apply in_map_iff in Hin as [[o' a] [<- Hin]].
    apply in_combine_l in Hin. rewrite Forall_forall in H. exact (H _ Hin). }
  rewrite Hs. eexists; reflexivity.
Qed.

(** X6: [Document.write] raises nothing when every registered object was
    initialised by [Object.__init__] and reaches no [Null] through its direct
    objects, and every object already in the cross-reference table has a
    generation. *)



End Serialization.

(** ** Backend fonts *)

Section BackendFonts.

(** X7: the backend [Document.register_font] raises exactly when the font
    is not cached and is not a core font, and then raises [AssertionError]. *)

Theorem register_font_raise (bd : bdoc) (f : font) (e : exn)
  (Hids : ids_ok (pdf_document bd)) :
  register_font bd f = Raise e <->
  e = AssertionError /\ assoc_get (fonts bd) (font_key f) = None /\ is_core f = false.
Proof.
  destruct (is_core f) eqn:Hc.
  - destruct (register_font_ok bd f Hids Hc) as [bd' [r [E _]]]. rewrite E.
    split; [discriminate | intros [_ [_ H]]; discriminate].
  - unfold register_font. destruct (assoc_get (fonts bd) (font_key f)) as [r|].
    + split; [discriminate | intros [_ [H _]]; discriminate].
    + rewrite Hc. split; [intro H; injection H as <-; auto | intros [-> _]; reflexivity].
Qed.

Lemma register_font_raise_witness :
  ids_ok (pdf_document bdoc2) /\
  (register_font bdoc2 (mk_font 3 false "Courier") = Raise AssertionError <->
   AssertionError = AssertionError /\
   assoc_get (fonts bdoc2) (font_key (mk_font 3 false "Courier")) = None /\
   is_core (mk_font 3 false "Courier") = false).
Proof.
  assert (Hids : ids_ok (pdf_document bdoc2)) by (split; vm_compute; reflexivity).
  split; [exact Hids | exact (register_font_raise bdoc2 (mk_font 3 false "Courier") AssertionError Hids)].
Defined.

Lemma register_font_bpages (bd bd' : bdoc) (f : font) (r : Z) :
  register_font bd f = Ok (bd', r) -> bpages bd' = bpages bd.
Proof.
  unfold register_font. destruct (assoc_get (fonts bd) (font_key f)).
  - intro H. injection H as <- _. reflexivity.
  - destruct (is_core f); [|discriminate].
    intro H. apply bind_ok in H as [[pd i] [_ H]].
    apply bind_ok in H as [pd1 [_ H]]. apply bind_ok in H as [pd2 [_ H]].
    injection H as <- _. reflexivity.
Qed.

(** X8: [Page.register_font] is idempotent: calling it again with the same
    font on the same page returns the same alias and changes nothing. *)

Theorem page_register_font_idempotent (bd bd' : bdoc) (p : nat) (f : font) (name : string)
  (H : page_register_font bd p f = Ok (bd', name)) :
  page_register_font bd' p f = Ok (bd', name).
Proof.
  pose proof H as H0.
  unfold page_register_font in H.
  destruct (nth_error (bpages bd) p) as [pg|] eqn:Hp; [|discriminate].
  destruct (assoc_get (font_names pg) (font_key f)) as [n|] eqn:Hn.
  - injection H as <- <-. exact H0.
  - apply bind_ok in H as [[bd1 r] [Hr H]]. cbn beta iota in H.
    apply bind_ok in H as [pd [_ H]]. injection H as <- <-.
    eapply page_register_font_hit.
    + cbn [bpages]. apply (nth_error_list_set_same _ _ _ pg).
      rewrite (register_font_bpages _ _ _ _ Hr). exact Hp.
    + cbn [font_names]. rewrite assoc_get_app_none, Nat.eqb_refl by exact Hn. reflexivity.
Qed.

Lemma page_register_font_idempotent_witness :
  page_register_font bdoc2 0 font_a = Ok (bdoc_f1, "F1") /\
  page_register_font bdoc_f1 0 font_a = Ok (bdoc_f1, "F1").
Proof.
  assert (H : page_register_font bdoc2 0 font_a = Ok (bdoc_f1, "F1")) by (vm_compute; reflexivity).
  split; [exact H | exact (page_register_font_idempotent bdoc2 bdoc_f1 0 font_a "F1" H)].
Defined.

End BackendFonts.

(** ** The canvas *)

Section Canvas.

(** X11: [show_glyphs] with a zero font size raises [ZeroDivisionError]
    as soon as there is one glyph to show; with no glyph it writes an empty
    text object. *)



Lemma combine_app {A B : Type} (a c : list A) (b d : list B) :
  length a = length b -> combine (a ++ c) (b ++ d) = (combine a b ++ combine c d)%list.
Proof.
  revert b. induction a as [|x a IH]; intros [|y b] H; simpl in *; try discriminate; auto.
  f_equal. apply IH. lia.
Qed.

(** X12: [show_glyphs] pairs glyphs and displacements with [zip]: glyphs
    or displacements beyond the shorter list are ignored. *)

Theorem show_glyphs_zip_truncates (buf x y : string) (cm : char_metrics) (size_str : string)
  (size : Q) (glyphs extra_glyphs : list string) (xd extra_xd : list Q) (font_name : string)
  (Hl : length glyphs = length xd) (He : extra_glyphs = [] \/ extra_xd = []) :
  show_glyphs buf x y cm size_str size (glyphs ++ extra_glyphs) (xd ++ extra_xd) font_name =
  show_glyphs buf x y cm size_str size glyphs xd font_name.
Proof.
  unfold show_glyphs. rewrite combine_app by exact Hl.
  destruct He as [-> | ->]; simpl combine; [|rewrite combine_nil]; rewrite app_nil_r; reflexivity.
Qed.

Lemma show_glyphs_zip_truncates_witness :
  length ["X"] = length [1%Q] /\
  show_glyphs "" "1" "2" metrics_200 "10" 10 (["X"] ++ ["X"; "X"]) ([1%Q] ++ []) "F1" =
  show_glyphs "" "1" "2" metrics_200 "10" 10 ["X"] [1%Q] "F1".
Proof.
  split; [reflexivity|].
  apply show_glyphs_zip_truncates; [reflexivity | right; reflexivity].
Defined.

(** X13: [stroke] with a line width of zero writes no [w] operator, only
    [q], [s] and [Q]; and a colour changes nothing that [stroke] or [fill]
    writes, since [color] prints nothing. *)

Theorem stroke_zero_width_and_color (buf : string) (w : pynum) (lw : option pynum) (c : rgba)
  (Hw : truthy_num w = false) :
  stroke buf (Some w) None = buf ++ "q" ++ nl ++ "s" ++ nl ++ "Q" ++ nl /\
  stroke buf lw (Some c) = stroke buf lw None /\
  fill buf (Some c) = fill buf None.
Proof.
  destruct c as [[[r g] b] a].
  split; [|split; reflexivity].
  unfold stroke. rewrite Hw. unfold restore_state, save_state, print. rewrite !sapp_assoc.
  reflexivity.
Qed.

Lemma stroke_zero_width_and_color_witness :
  truthy_num (mk_num 0 "0.0") = false /\
  stroke "" (Some (mk_num 0 "0.0")) None = "" ++ "q" ++ nl ++ "s" ++ nl ++ "Q" ++ nl /\
  stroke "" (Some (mk_num 1 "1.0")) (Some (1, 0, 0, 1)%Q) = stroke "" (Some (mk_num 1 "1.0")) None /\
  fill "" (Some (1, 0, 0, 1)%Q) = fill "" None.
Proof.
  split; [reflexivity|].
  exact (stroke_zero_width_and_color "" (mk_num 0 "0.0") (Some (mk_num 1 "1.0")) (1, 0, 0, 1)%Q
           eq_refl).
Defined.

(** X14: [line_path] raises [IndexError] on an empty list of points;
    otherwise it writes one [m] for the first point, one [l] per further
    point in order, and a closing [h]. *)

Theorem line_path_output (buf : string) (points : list (string * string)) :
  line_path buf points =
    match points with
    | [] => Raise IndexError
    | (x, y) :: rest =>
        Ok (buf ++ (x ++ " " ++ y ++ " m" ++ nl) ++
            fold_right append "" (map (fun p => fst p ++ " " ++ snd p ++ " l" ++ nl) rest) ++
            "h" ++ nl)
    end.
Proof.
  destruct points as [|[x y] rest]; [reflexivity|].
  unfold line_path, new_path, close_path, print. f_equal.
  assert (G : forall b, fold_left (fun b (p : string * string) => let '(x, y) := p in line_to b x y) rest b
                = b ++ fold_right append "" (map (fun p => fst p ++ " " ++ snd p ++ " l" ++ nl) rest)).
  { induction rest as [|[u v] rest IH]; intro b; cbn [fold_left fold_right map fst snd];
      [symmetry; apply sapp_nil_r|].
    rewrite IH. unfold line_to, print. rewrite !sapp_assoc. reflexivity. }
  rewrite G. unfold move_to, print. rewrite !sapp_assoc. reflexivity.
Qed.

End Canvas.

(** ** Backend [Document.write] *)

Section BackendWrite.

Lemma reg_lookup_modify_other (d d' : document) (i k : Z) (f : value -> result value) :
  modify d i f = Ok d' -> k <> i -> reg_lookup (objects d') k = reg_lookup (objects d) k.
Proof.
  intros H Hk. apply modify_inv in H as [v [v' [_ [_ ->]]]].
  unfold set_objects; cbn [objects]. rewrite reg_lookup_replace.
  destruct (Z.eqb_spec k i); [contradiction | reflexivity].
Qed.

Lemma reg_lookup_modify_same (d d' : document) (i : Z) (f : value -> result value) :
  modify d i f = Ok d' ->
  exists v v', reg_lookup (objects d) i = Some v /\ f v = Ok v' /\ reg_lookup (objects d') i = Some v'.
Proof.
  intro H. apply modify_inv in H as [v [v' [Hv [Hf ->]]]].
  exists v, v'. split; [exact Hv|]. split; [exact Hf|].
  unfold set_objects; cbn [objects] in *. rewrite reg_lookup_replace, Z.eqb_refl, Hv.
  reflexivity.
Qed.

Lemma identifier_modify (d d' : document) (i : Z) (f : value -> result value) :
  modify d i f = Ok d' -> _identifier d' = _identifier d.
Proof. intro H. apply modify_inv in H as [v [v' [_ [_ ->]]]]. destruct d; reflexivity. Qed.

Lemma write_contents_spec (pgs : list bpage) : forall (pd : document),
  ids_ok pd -> NoDup (map pdf_page pgs) ->
  Forall (fun pg => exists c es, reg_lookup (objects pd) (pdf_page pg) = Some (Dictionary c es)) pgs ->
  exists pd', write_contents pd pgs = Ok pd' /\ ids_ok pd' /\
    _identifier pd' = _identifier pd + Z.of_nat (length pgs) /\
    (forall i, i <= _identifier pd -> ~ In i (map pdf_page pgs) ->
       reg_lookup (objects pd') i = reg_lookup (objects pd) i) /\
    (forall k pg, nth_error pgs k = Some pg ->
       reg_lookup (objects pd') (_identifier pd + Z.of_nat k + 1) = Some (Stream (utf8 (canvas pg))) /\
       exists c es, reg_lookup (objects pd) (pdf_page pg) = Some (Dictionary c es) /\
         reg_lookup (objects pd') (pdf_page pg) =
           Some (Dictionary c (od_set es "Contents" (Reference (_identifier pd + Z.of_nat k + 1) 0)))).
Proof.
  induction pgs as [|page r IH]; intros pd Hids Hnd Hd.
  - exists pd. split; [reflexivity|]. split; [exact Hids|]. split; [cbn; lia|].
    split; [reflexivity|]. intros [|k] pg H; discriminate.
  - inversion Hnd as [|? ? Hnin Hnd']; subst.
    inversion Hd as [|? ? [c [es Hpage]] Hd']; subst.
    set (cid := _identifier pd + 1).
    set (pd1 := fst (register pd (Stream ""))).
    assert (Hids1 : ids_ok pd1) by (apply ids_ok_register; exact Hids).
    assert (Hfresh := ids_ok_fresh pd Hids).
    assert (L1 : forall i, i <= _identifier pd -> reg_lookup (objects pd1) i = reg_lookup (objects pd) i).
    { intros i Hi. destruct (reg_lookup (objects pd) i) eqn:E.
      - apply reg_lookup_app_some. exact E.
      - cbn [pd1 register fst objects]. rewrite reg_lookup_app_none by exact E.
        destruct (Z.eqb_spec (_identifier pd + 1) i); [lia | reflexivity]. }
    assert (Lc : reg_lookup (objects pd1) cid = Some (Stream "")).
    { cbn [pd1 register fst objects]. rewrite reg_lookup_app_none by exact Hfresh.
      rewrite Z.eqb_refl. reflexivity. }
    assert (Hbound : forall pg, In pg (page :: r) -> exists c es,
              reg_lookup (objects pd) (pdf_page pg) = Some (Dictionary c es)).
    { intros pg [<-|Hin]; [eauto|]. rewrite Forall_forall in Hd'. exact (Hd' pg Hin). }
    assert (Hle : forall pg, In pg (page :: r) -> pdf_page pg <= _identifier pd).
    { intros pg Hin. destruct (Hbound pg Hin) as [c' [es' E]].
      apply (ids_ok_bound pd) in E; [lia | exact Hids]. }
    assert (Hpage_le := Hle page (or_introl eq_refl)).
    pose proof (modify_ok pd1 cid (stream_write (utf8 (canvas page))) (Stream "")
                (Stream (utf8 (canvas page))) Lc eq_refl) as Hm.
    set (pd2 := set_objects pd1 (reg_replace (objects pd1) cid (Stream (utf8 (canvas page))))) in Hm.
    assert (L2 : forall i, i <> cid -> reg_lookup (objects pd2) i = reg_lookup (objects pd1) i).
    { intros i Hi. apply (reg_lookup_modify_other _ _ _ _ _ Hm Hi). }
    assert (Hp2 : reg_lookup (objects pd2) (pdf_page page) = Some (Dictionary c es)).
    { rewrite L2 by (unfold cid; lia). rewrite L1 by lia. exact Hpage. }
    assert (Hs : setitem pd2 (pdf_page page) "Contents" (Reference cid 0) =
                 Ok (set_objects pd2 (reg_replace (objects pd2) (pdf_page page)
                       (Dictionary c (od_set es "Contents" (Reference cid 0)))))).
    { unfold setitem. apply modify_ok with (v := Dictionary c es); [exact Hp2 | reflexivity]. }
    set (pd3 := set_objects pd2 _) in Hs.
    assert (L3 : forall i, i <> pdf_page page -> reg_lookup (objects pd3) i = reg_lookup (objects pd2) i).
    { intros i Hi. unfold setitem in Hs. apply (reg_lookup_modify_other _ _ _ _ _ Hs Hi). }
    assert (Hp3 : reg_lookup (objects pd3) (pdf_page page) =
                  Some (Dictionary c (od_set es "Contents" (Reference cid 0)))).
    { unfold setitem in Hs. destruct (reg_lookup_modify_same _ _ _ _ Hs) as [v [v' [E1 [E2 E3]]]].
      rewrite Hp2 in E1. injection E1 as <-. injection E2 as <-. exact E3. }
    assert (Hids3 : ids_ok pd3).
    { apply (ids_ok_modify pd2 pd3 (pdf_page page) _ (ids_ok_modify pd1 pd2 cid _ Hids1 Hm) Hs). }
    assert (Hid3 : _identifier pd3 = _identifier pd + 1).
    { unfold setitem in Hs. rewrite (identifier_modify _ _ _ _ Hs), (identifier_modify _ _ _ _ Hm).
      reflexivity. }
    assert (L : forall i, i <= _identifier pd -> i <> pdf_page page ->
                reg_lookup (objects pd3) i = reg_lookup (objects pd) i).
    { intros i Hi Hp. rewrite L3, L2, L1 by (unfold cid in *; lia). reflexivity. }
    destruct (IH pd3 Hids3 Hnd') as [pd' [Ew [Hids' [Hid' [Hother Hnth]]]]].
    { rewrite Forall_forall in Hd' |- *. intros pg Hin.
      rewrite L; [exact (Hd' pg Hin) | apply Hle; right; exact Hin |].
      intro E. apply Hnin. rewrite <- E. apply in_map. exact Hin. }
    exists pd'. split.
    { cbn [write_contents]. change (register pd (Stream "")) with (pd1, cid).
      cbv beta iota zeta. rewrite Hm. cbn [bind]. rewrite Hs. cbn [bind]. exact Ew. }
    split; [exact Hids'|]. split; [rewrite Hid', Hid3; cbn [length]; lia|].
    split.
    { intros i Hi Hin. rewrite Hother.
      - apply L; [exact Hi|]. intro E. apply Hin. left. symmetry. exact E.
      - lia.
      - intro E. apply Hin. right. exact E. }
    intros [|k] pg Hk.
    + injection Hk as <-. split.
      * rewrite Hother; [| lia |].
        -- rewrite L3 by (unfold cid; lia). rewrite Z.add_0_r. unfold pd2. cbn [objects set_objects].
           rewrite reg_lookup_replace, Z.eqb_refl, Lc. reflexivity.
        -- intro Hin. apply in_map_iff in Hin as [pg' [E Hin]].
           assert (Hb := Hle pg' (or_intror Hin)). unfold cid in E. lia.
      * exists c, es. split; [exact Hpage|]. rewrite Z.add_0_r. fold cid.
        rewrite Hother; [exact Hp3 | lia | exact Hnin].
    + cbn [nth_error] in Hk. destruct (Hnth k pg Hk) as [Hst [c' [es' [E1 E2]]]].
      split.
      * rewrite Hid3 in Hst. rewrite <- Hst. f_equal. lia.
      * exists c', es'. split.
        -- rewrite <- L; [exact E1 | apply Hle; right; apply nth_error_In with k; exact Hk |].
           intro E. apply Hnin. rewrite <- E. apply in_map. apply nth_error_In with k. exact Hk.
        -- rewrite E2, Hid3. do 4 f_equal. lia.
Qed.

Lemma ser_obj_map (a : option obj_attrs) (w w' : value) :
  serializable (Obj a w) = true ->
  (value_serializable w = true -> value_serializable w' = true) ->
  serializable (Obj a w') = true.
Proof.
  intros H Hw. destruct a as [a|]; [|discriminate]. cbn [serializable] in *.
  destruct (identifier a); auto.
Qed.

Lemma vs_od_set (c c' : dict_class) (es : list (string * pyobj)) (k : string) (x : pyobj) :
  value_serializable (Dictionary c es) = true -> serializable x = true ->
  value_serializable (Dictionary c' (od_set es k x)) = true.
Proof.
  cbn [value_serializable]. intros H Hx. induction es as [|[k' y] es IH]; cbn [od_set].
  - cbn. rewrite Hx. reflexivity.
  - cbn [forallb snd] in H. apply andb_prop in H as [H1 H2].
    destruct (String.eqb k k'); cbn [forallb snd]; rewrite ?Hx, ?H1, ?H2, ?IH; auto.
Qed.

Lemma vs_od_get (c : dict_class) (es : list (string * pyobj)) (k : string) (x : pyobj) :
  value_serializable (Dictionary c es) = true -> od_get es k = Some x -> serializable x = true.
Proof.
  cbn [value_serializable]. induction es as [|[k' y] es IH]; cbn [od_get]; [discriminate|].
  cbn [forallb snd]. intros H. apply andb_prop in H as [H1 H2].
  destruct (String.eqb k k'); [intro E; injection E as <-; exact H1 | auto].
Qed.

Lemma reg_lookup_registry_ok (l : list pyobj) (i : Z) (v : value) :
  Forall (fun o => registry_ok o = true) l -> reg_lookup l i = Some v -> value_serializable v = true.
Proof.
  induction l as [|o l IH]; intros H E; [discriminate|].
  inversion H as [|? ? Ho Hl]; subst. cbn [reg_lookup] in E.
  destruct o as [ri rg|[a|] w]; [discriminate| |discriminate].
  destruct (has_id i (Obj (Some a) w)); [injection E as <-; exact Ho | auto].
Qed.

Lemma registry_ok_replace (l : list pyobj) (i : Z) (v : value) :
  Forall (fun o => registry_ok o = true) l -> value_serializable v = true ->
  Forall (fun o => registry_ok o = true) (reg_replace l i v).
Proof.
  intros H Hv. unfold reg_replace. apply Forall_map. eapply Forall_impl; [|exact H].
  intros [ri rg|[a|] w]; auto. destruct (has_id i (Obj (Some a) w)); auto.
Qed.

Lemma page_ok_bound (pd : document) (h : Z) : ids_ok pd -> page_ok pd h -> 1 <= h <= _identifier pd.
Proof. intros Hids [v [Hv _]]. exact (ids_ok_bound pd h v Hids Hv). Qed.

Lemma doc_inv_register (pd : document) (hs : list Z) (v : value) :
  doc_inv pd hs -> value_serializable v = true -> doc_inv (fst (register pd v)) hs.
Proof.
  intros [Hids [Hx [Hr Hp]]] Hv. split; [apply ids_ok_register; exact Hids|].
  split; [exact Hx|]. split.
  - cbn [register fst objects]. apply Forall_app. split; [exact Hr|]. constructor; [exact Hv | constructor].
  - eapply Forall_impl; [|exact Hp]. intros h [w [Hw Hs]]. exists w. split; [|exact Hs].
    apply reg_lookup_app_some. exact Hw.
Qed.

Lemma doc_inv_modify (pd pd' : document) (hs : list Z) (i : Z) (f : value -> result value) :
  doc_inv pd hs -> modify pd i f = Ok pd' ->
  (forall v v', f v = Ok v' -> value_serializable v = true -> value_serializable v' = true) ->
  (forall v v', f v = Ok v' -> page_shape_ok v -> page_shape_ok v') ->
  doc_inv pd' hs.
Proof.
  intros [Hids [Hx [Hr Hp]]] Hm Fs Fp.
  pose proof (ids_ok_modify _ _ _ _ Hids Hm) as Hids'.
  pose proof (reg_lookup_modify_same _ _ _ _ Hm) as [v [v' [Hv [Hf Hv']]]].
  pose proof (fun k => reg_lookup_modify_other pd pd' i k f Hm) as Hoth.
  apply modify_inv in Hm as [v0 [v0' [Hv0 [Hf0 Ed]]]].
  rewrite Hv in Hv0. injection Hv0 as <-. rewrite Hf in Hf0. injection Hf0 as <-.
  split; [exact Hids'|]. split; [rewrite Ed; exact Hx|]. split.
  - rewrite Ed. apply registry_ok_replace; [exact Hr|].
    apply (Fs v); [exact Hf | exact (reg_lookup_registry_ok _ _ _ Hr Hv)].
  - eapply Forall_impl; [|exact Hp]. intros h [w [Hw Hs]].
    destruct (Z.eq_dec h i) as [->|Hne].
    + exists v'. split; [exact Hv'|]. rewrite Hv in Hw. injection Hw as ->. exact (Fp w v' Hf Hs).
    + exists w. split; [rewrite Hoth; assumption | exact Hs].
Qed.

Lemma setitem_inv (pd pd' : document) (hs : list Z) (i : Z) (k : string) (x : pyobj) :
  doc_inv pd hs -> setitem pd i k x = Ok pd' -> serializable x = true -> k <> "Resources" ->
  doc_inv pd' hs.
Proof.
  intros Hinv Hs Hx Hk. unfold setitem in Hs. apply (doc_inv_modify _ _ _ _ _ Hinv Hs).
  - intros [| | | | | |c es| |] v' E; try discriminate. injection E as <-.
    intro H. exact (vs_od_set c c es k x H Hx).
  - intros [| | | | | |c es| |] v' E; try discriminate. injection E as <-.
    unfold page_shape_ok. rewrite od_get_set_other by (intro E; apply Hk; symmetry; exact E).
    exact (fun H => H).
Qed.

Lemma kids_append_inv (pd pd' : document) (hs : list Z) (i p : Z) :
  doc_inv pd hs -> modify pd i (kids_append p) = Ok pd' -> doc_inv pd' hs.
Proof.
  intros Hinv Hm. apply (doc_inv_modify _ _ _ _ _ Hinv Hm).
  - intros [| | | | | |c es| |] v' E; try discriminate. unfold kids_append in E.
    destruct (od_get es "Kids") as [[ri rg|a [| | | | |items| | |]]|] eqn:Ek; try discriminate.
    injection E as <-. intro H. apply (vs_od_set c c es); [exact H|].
    apply (ser_obj_map a (Array items)); [exact (vs_od_get _ _ _ _ H Ek)|].
    cbn [value_serializable]. rewrite forallb_app. intros ->. reflexivity.
  - intros [| | | | | |c es| |] v' E; try discriminate. unfold kids_append in E.
    destruct (od_get es "Kids") as [[ri rg|a [| | | | |items| | |]]|] eqn:Ek; try discriminate.
    injection E as <-. unfold page_shape_ok. rewrite od_get_set_other by discriminate.
    exact (fun H => H).
Qed.

Lemma count_incr_inv (pd pd' : document) (hs : list Z) (i : Z) :
  doc_inv pd hs -> modify pd i count_incr = Ok pd' -> doc_inv pd' hs.
Proof.
  intros Hinv Hm. apply (doc_inv_modify _ _ _ _ _ Hinv Hm).
  - intros [| | | | | |c es| |] v' E; try discriminate. unfold count_incr in E.
    destruct (od_get es "Count") as [[ri rg|a [|n| | | | | | |]]|]; try discriminate.
    injection E as <-. intro H. apply (vs_od_set c c es); [exact H | reflexivity].
  - intros [| | | | | |c es| |] v' E; try discriminate. unfold count_incr in E.
    destruct (od_get es "Count") as [[ri rg|a [|n| | | | | | |]]|]; try discriminate.
    injection E as <-. unfold page_shape_ok. rewrite od_get_set_other by discriminate.
    exact (fun H => H).
Qed.

Lemma resources_add_font_inv (pd pd' : document) (hs : list Z) (i r : Z) (name : string) :
  doc_inv pd hs -> modify pd i (resources_add_font name r) = Ok pd' -> doc_inv pd' hs.
Proof.
  intros Hinv Hm. apply (doc_inv_modify _ _ _ _ _ Hinv Hm).
  - intros [| | | | | |c es| |] v' E; try discriminate. unfold resources_add_font in E.
    destruct (od_get es "Resources") as [[ri rg|a [| | | | | |c' res| |]]|] eqn:Er; try discriminate.
    intro H. pose proof (vs_od_get _ _ _ _ H Er) as Ha.
    assert (Hfd : forall x, od_get res "Font" = Some x ->
                  value_serializable (Dictionary c' res) = true -> serializable x = true)
      by (intros x Ex Hres; exact (vs_od_get _ _ _ _ Hres Ex)).
    destruct (match od_get res "Font" with Some x => x | None => direct (Dictionary PlainDict []) end)
      as [ri rg|fa [| | | | | |fc fes| |]] eqn:Efd; try discriminate.
    injection E as <-. apply (vs_od_set c c es); [exact H|].
    apply (ser_obj_map a (Dictionary c' res)); [exact Ha|]. intro Hres.
    apply (vs_od_set c' c' res); [exact Hres|].
    assert (Hfd' : serializable (Obj fa (Dictionary fc fes)) = true).
    { destruct (od_get res "Font") as [x|]; [subst x; exact (Hfd _ eq_refl Hres)|].
      injection Efd as <- <- <-. reflexivity. }
    apply (ser_obj_map fa (Dictionary fc fes)); [exact Hfd'|].
    intro Hf. apply (vs_od_set fc fc fes); [exact Hf | reflexivity].
  - intros v v' E Hs. destruct (resources_add_font_ok name r v Hs) as [v'' [E' [Hs' _]]].
    rewrite E in E'. injection E' as ->. exact Hs'.
Qed.

Lemma stream_write_inv (pd pd' : document) (hs : list Z) (i : Z) (b : string) :
  doc_inv pd hs -> modify pd i (stream_write b) = Ok pd' -> doc_inv pd' hs.
Proof.
  intros Hinv Hm. apply (doc_inv_modify _ _ _ _ _ Hinv Hm).
  - intros [| | | | | | |p|] v' E; try discriminate. injection E as <-. reflexivity.
  - intros [| | | | | | |p|] v' E; try discriminate. intro H. contradiction.
Qed.

Lemma Page_new_register (pd : document) (parent : Z) (w h : string) :
  ids_ok pd ->
  Page_new pd parent w h = Ok (fst (register pd (page_value parent w h)), _identifier pd + 1).
Proof. intro Hids. rewrite Page_new_eq by (apply ids_ok_fresh; exact Hids). reflexivity. Qed.

Lemma page_value_shape (parent : Z) (w h : string) : page_shape_ok (page_value parent w h).
Proof. exact I. Qed.

Lemma page_value_serializable (parent : Z) (w h : string) :
  value_serializable (page_value parent w h) = true.
Proof. reflexivity. Qed.

Lemma map_pdf_page_list_set (l : list bpage) (p : nat) (pg pg' : bpage) :
  nth_error l p = Some pg -> pdf_page pg' = pdf_page pg ->
  map pdf_page (list_set l p pg') = map pdf_page l.
Proof.
  revert p. induction l as [|x l IH]; intros [|p] H E; cbn in *; try discriminate.
  - injection H as ->. rewrite E. reflexivity.
  - rewrite (IH p H E). reflexivity.
Qed.

Lemma bdoc_inv_init (bd : bdoc) : bdoc_init = Ok bd -> bdoc_inv bd.
Proof.
  unfold bdoc_init. rewrite doc0_eq. cbn [bind]. intro H. injection H as <-.
  split; [|constructor]. split; [exact (ids_ok_init doc0 doc0_eq)|].
  split; [reflexivity|]. split; [|constructor].
  apply Forall_forall. apply forallb_forall. reflexivity.
Qed.

Lemma bpage_new_inv (bd bd' : bdoc) (w h : string) (p : nat) :
  bdoc_inv bd -> bpage_new bd w h = Ok (bd', p) -> bdoc_inv bd'.
Proof.
  intros [Hinv Hnd] H. unfold bpage_new in H.
  destruct (new_page (pdf_document bd) (pages (pdf_document bd)) w h) as [[pd1 q]|e] eqn:En;
    [|discriminate].
  cbn [bind] in H. injection H as <- _. unfold bdoc_inv in *; cbn [pdf_document bpages].
  set (pd := pdf_document bd) in *. set (hs := map pdf_page (bpages bd)) in *.
  pose proof Hinv as [Hids _].
  unfold new_page in En. rewrite Page_new_register in En by exact Hids. cbn [bind] in En.
  destruct (modify _ (pages pd) (kids_append _)) as [pd2|e] eqn:E1; [|discriminate].
  cbn [bind] in En. destruct (modify pd2 (pages pd) count_incr) as [pd3|e] eqn:E2; [|discriminate].
  cbn [bind] in En. injection En as <- <-.
  set (pd0 := fst (register pd (page_value (pages pd) w h))) in *.
  assert (Hinv0 : doc_inv pd0 (hs ++ [_identifier pd + 1])).
  { destruct (doc_inv_register pd hs _ Hinv (page_value_serializable (pages pd) w h))
      as [H1 [H2 [H3 H4]]].
    split; [exact H1|]. split; [exact H2|]. split; [exact H3|].
    apply Forall_app. split; [exact H4|]. constructor; [|constructor].
    exists (page_value (pages pd) w h). split; [|apply page_value_shape].
    cbn [pd0 register fst objects]. rewrite reg_lookup_app_none, Z.eqb_refl; [reflexivity|].
    apply ids_ok_fresh. exact Hids. }
  split.
  - rewrite map_app. cbn [map pdf_page]. fold hs.
    exact (count_incr_inv _ _ _ _ (kids_append_inv _ _ _ _ _ Hinv0 E1) E2).
  - rewrite map_app. cbn [map pdf_page]. fold hs. apply NoDup_app; [exact Hnd | constructor; [intros [] | constructor]|].
    intros x Hx [<-|[]]. destruct Hinv as [_ [_ [_ Hp]]]. rewrite Forall_forall in Hp.
    pose proof (page_ok_bound pd _ Hids (Hp _ Hx)). lia.
Qed.

Lemma register_font_inv (bd bd' : bdoc) (f : font) (r : Z) :
  bdoc_inv bd -> register_font bd f = Ok (bd', r) -> bdoc_inv bd' /\ bpages bd' = bpages bd.
Proof.
  intros [Hinv Hnd] H. unfold register_font in H.
  destruct (assoc_get (fonts bd) (font_key f)) as [r0|]; [injection H as <- _; split; [split|]; auto|].
  destruct (is_core f); [|discriminate].
  set (pd := pdf_document bd) in *. set (hs := map pdf_page (bpages bd)) in *.
  unfold Font_new in H. destruct (register pd (Dictionary FontC [])) as [pd0 i] eqn:Er.
  cbv beta iota zeta in H.
  destruct (setitem pd0 i "Type" (direct (Name "Font"))) as [pd1|e] eqn:E1; [|discriminate].
  cbn [bind] in H.
  destruct (setitem pd1 i "Subtype" (direct (Name "Type1"))) as [pd2|e] eqn:E2; [|discriminate].
  cbn [bind] in H.
  destruct (setitem pd2 i "BaseFont" (direct (Name (ps_name f)))) as [pd3|e] eqn:E3; [|discriminate].
  cbn [bind] in H. injection H as <- _. unfold bdoc_inv in *; cbn [pdf_document bpages]. split; [|reflexivity].
  split; [|exact Hnd].
  assert (Hinv0 : doc_inv pd0 hs).
  { replace pd0 with (fst (register pd (Dictionary FontC []))) by (rewrite Er; reflexivity).
    apply doc_inv_register; [exact Hinv | reflexivity]. }
  apply (setitem_inv _ _ _ _ _ _ (setitem_inv _ _ _ _ _ _ (setitem_inv _ _ _ _ _ _ Hinv0 E1 eq_refl
           ltac:(discriminate)) E2 eq_refl ltac:(discriminate)) E3 eq_refl ltac:(discriminate)).
Qed.

Lemma page_register_font_inv (bd bd' : bdoc) (p : nat) (f : font) (name : string) :
  bdoc_inv bd -> page_register_font bd p f = Ok (bd', name) -> bdoc_inv bd'.
Proof.
  intros Hbd H. unfold page_register_font in H.
  destruct (nth_error (bpages bd) p) as [pg|] eqn:Ep; [|discriminate].
  destruct (assoc_get (font_names pg) (font_key f)) as [n|]; [injection H as <- _; exact Hbd|].
  destruct (register_font bd f) as [[bd1 r]|e] eqn:Ef; [|discriminate].
  cbn [bind] in H. destruct (register_font_inv bd bd1 f r Hbd Ef) as [[Hinv1 Hnd1] Hpg1].
  destruct (modify (pdf_document bd1) (pdf_page pg) _) as [pd|e] eqn:Em; [|discriminate].
  cbn [bind] in H. injection H as <- _. unfold bdoc_inv in *; cbn [pdf_document bpages].
  rewrite Hpg1 in *.
  rewrite (map_pdf_page_list_set (bpages bd) p pg) by (exact Ep || reflexivity).
  split; [|exact Hnd1]. exact (resources_add_font_inv _ _ _ _ _ _ Hinv1 Em).
Qed.

Lemma reachable_bdoc_inv (bd : bdoc) : reachable_bdoc bd -> bdoc_inv bd.
Proof.
  induction 1 as [bd H | bd bd' w h p _ IH H | bd bd' f r _ IH H | bd bd' p f name _ IH H
                 | bd p pg s _ IH H].
  - exact (bdoc_inv_init bd H).
  - exact (bpage_new_inv bd bd' w h p IH H).
  - exact (proj1 (register_font_inv bd bd' f r IH H)).
  - exact (page_register_font_inv bd bd' p f name IH H).
  - unfold bdoc_inv. cbn [pdf_document bpages].
    rewrite (map_pdf_page_list_set (bpages bd) p pg) by (exact H || reflexivity). exact IH.
Qed.

Lemma write_contents_inv (pgs : list bpage) : forall (pd pd' : document),
  doc_inv pd [] -> write_contents pd pgs = Ok pd' -> doc_inv pd' [].
Proof.
  induction pgs as [|page r IH]; intros pd pd' Hinv H; cbn [write_contents] in H.
  - injection H as <-. exact Hinv.
  - destruct (register pd (Stream "")) as [pd0 c] eqn:Er. cbv beta iota zeta in H.
    assert (Hinv0 : doc_inv pd0 []).
    { replace pd0 with (fst (register pd (Stream ""))) by (rewrite Er; reflexivity).
      apply doc_inv_register; [exact Hinv | reflexivity]. }
    destruct (modify pd0 c _) as [pd1|e] eqn:E1; [|discriminate]. cbn [bind] in H.
    destruct (setitem pd1 _ _ _) as [pd2|e] eqn:E2; [|discriminate]. cbn [bind] in H.
    apply (IH pd2 pd' (setitem_inv _ _ _ _ _ _ (stream_write_inv _ _ _ _ _ Hinv0 E1) E2
                         eq_refl ltac:(discriminate)) H).
Qed.

Lemma write_ok_of (d : document) (file : string)
  (Hobj : Forall (fun o => registry_ok o = true) (objects d))
  (Hx : Forall (fun o => generation_ok o = true) (xobjects (xref_table d))) :
  exists d' output, write d file = (d', output, None).
Proof.
  unfold write.
  destruct (write_objects_total (objects d) (xref_table d)
              (out file (utf8 ("%PDF-" ++ PDF_VERSION)) ++ binary_marker) Hobj)
    as [xr' [f' [E Hxo]]].
  rewrite E.
  destruct (xref_bytes_total xr') as [xb Hxb].
  { rewrite Hxo. apply Forall_app. split; [exact Hx|].
    eapply Forall_impl; [|exact Hobj]. intros [i g | [a|] v]; simpl; congruence. }
  rewrite Hxb. cbn [set_xref catalog]. rewrite trailer_bytes. eauto.
Qed.

Lemma write_keeps_objects (d d' : document) (file output : string) (err : option exn) :
  write d file = (d', output, err) ->
  objects d' = objects d /\ _identifier d' = _identifier d.
Proof.
  unfold write. destruct (write_objects _ _ _) as [[xr f] e]. intro H.
  destruct e; [injection H as <-; split; reflexivity|].
  destruct (xref_bytes xr); [|injection H as <-; split; reflexivity].
  destruct (bytes _); injection H as <-; split; reflexivity.
Qed.

Lemma backend_write_run (bd : bdoc) : reachable_bdoc bd ->
  exists pd' d' output,
    write_contents (pdf_document bd) (bpages bd) = Ok pd' /\
    write pd' "" = (d', output, None) /\
    bdoc_write bd = Ok (mk_bdoc d' (bpages bd) (fonts bd), output, None) /\
    _identifier pd' = _identifier (pdf_document bd) + Z.of_nat (length (bpages bd)) /\
    (forall i, i <= _identifier (pdf_document bd) -> ~ In i (map pdf_page (bpages bd)) ->
       reg_lookup (objects pd') i = reg_lookup (objects (pdf_document bd)) i) /\
    (forall k pg, nth_error (bpages bd) k = Some pg ->
       reg_lookup (objects pd') (_identifier (pdf_document bd) + Z.of_nat k + 1) =
         Some (Stream (utf8 (canvas pg))) /\
       exists c es, reg_lookup (objects (pdf_document bd)) (pdf_page pg) = Some (Dictionary c es) /\
         reg_lookup (objects pd') (pdf_page pg) =
           Some (Dictionary c (od_set es "Contents"
                   (Reference (_identifier (pdf_document bd) + Z.of_nat k + 1) 0)))).
Proof.
  intro H. destruct (reachable_bdoc_inv bd H) as [Hinv Hnd].
  pose proof Hinv as [Hids [Hx [Hr Hp]]].
  destruct (write_contents_spec (bpages bd) (pdf_document bd) Hids Hnd)
    as [pd' [Ew [_ [Hid [Hoth Hnth]]]]].
  { rewrite Forall_map in Hp. eapply Forall_impl; [|exact Hp].
    intros pg [v [Hv Hs]]. destruct v as [| | | | | |c es| |]; try contradiction. eauto. }
  assert (Hinv' : doc_inv pd' []).
  { apply (write_contents_inv (bpages bd) (pdf_document bd)); [|exact Ew].
    split; [exact Hids|]. split; [exact Hx|]. split; [exact Hr | constructor]. }
  destruct Hinv' as [_ [Hx' [Hr' _]]].
  destruct (write_ok_of pd' "" Hr') as [d' [out Hw]]; [rewrite Hx'; constructor|].
  exists pd', d', out. split; [exact Ew|]. split; [exact Hw|].
  split; [unfold bdoc_write; rewrite Ew; cbn [bind]; rewrite Hw; reflexivity|].
  auto.
Qed.

Lemma reachable_bdoc_f3 : reachable_bdoc bdoc_f3.
Proof.
  set (bd0 := match bdoc_init with Ok bd => bd | Raise _ => bdoc1 end).
  assert (H0 : reachable_bdoc bd0) by (apply rb_init; vm_compute; reflexivity).
  assert (H1 : reachable_bdoc bdoc1)
    by (apply (rb_page bd0 bdoc1 "595.0" "842.0" 0 H0); vm_compute; reflexivity).
  assert (H2 : reachable_bdoc bdoc2)
    by (apply (rb_page bdoc1 bdoc2 "595.0" "842.0" 1 H1); vm_compute; reflexivity).
  assert (H3 : reachable_bdoc bdoc_f1)
    by (apply (rb_page_font bdoc2 bdoc_f1 0 font_a "F1" H2); vm_compute; reflexivity).
  assert (H4 : reachable_bdoc bdoc_f2)
    by (apply (rb_page_font bdoc_f1 bdoc_f2 0 font_b "F2" H3); vm_compute; reflexivity).
  apply (rb_page_font bdoc_f2 bdoc_f3 1 font_b "F1" H4); vm_compute; reflexivity.
Qed.

(** X9: the backend [Document.write] raises nothing on any backend
    document that construction, new pages, font registrations and drawing
    produce. *)

Theorem backend_write_never_raises (bd : bdoc) (H : reachable_bdoc bd) :
  exists bd' output, bdoc_write bd = Ok (bd', output, None).
Proof.
  destruct (backend_write_run bd H) as [pd' [d' [out [_ [_ [E _]]]]]]. eauto.
Qed.

Lemma backend_write_never_raises_witness :
  reachable_bdoc bdoc_f3 /\ exists bd' output, bdoc_write bdoc_f3 = Ok (bd', output, None).
Proof.
  split; [exact reachable_bdoc_f3 | exact (backend_write_never_raises bdoc_f3 reachable_bdoc_f3)].
Defined.

(** X10: the backend [Document.write] gives the k-th page a new stream
    object, numbered after every object already registered, that holds the
    page's canvas, and sets the page's [Contents] entry to a reference to it;
    pages are unchanged and every other registered object is untouched. *)

Theorem backend_write_page_contents (bd : bdoc) (H : reachable_bdoc bd) :
  exists bd' output, bdoc_write bd = Ok (bd', output, None) /\
    bpages bd' = bpages bd /\
    _identifier (pdf_document bd') = _identifier (pdf_document bd) + Z.of_nat (length (bpages bd)) /\
    (forall i, i <= _identifier (pdf_document bd) -> ~ In i (map pdf_page (bpages bd)) ->
       reg_lookup (objects (pdf_document bd')) i = reg_lookup (objects (pdf_document bd)) i) /\
    (forall k pg, nth_error (bpages bd) k = Some pg ->
       let contents := _identifier (pdf_document bd) + Z.of_nat k + 1 in
       reg_lookup (objects (pdf_document bd')) contents = Some (Stream (utf8 (canvas pg))) /\
       exists c es, reg_lookup (objects (pdf_document bd)) (pdf_page pg) = Some (Dictionary c es) /\
         reg_lookup (objects (pdf_document bd')) (pdf_page pg) =
           Some (Dictionary c (od_set es "Contents" (Reference contents 0)))).
Proof.
  destruct (backend_write_run bd H) as [pd' [d' [out [_ [Hw [E [Hid [Hoth Hnth]]]]]]]].
  destruct (write_keeps_objects _ _ _ _ _ Hw) as [Eo Ei].
  exists (mk_bdoc d' (bpages bd) (fonts bd)), out. cbn [pdf_document bpages].
  rewrite Eo, Ei. split; [exact E|]. split; [reflexivity|]. split; [exact Hid|].
  split; [exact Hoth | exact Hnth].
Qed.

Lemma backend_write_page_contents_witness :
  reachable_bdoc bdoc_f3 /\
  exists bd' output, bdoc_write bdoc_f3 = Ok (bd', output, None) /\
    bpages bd' = bpages bdoc_f3 /\
    _identifier (pdf_document bd') =
      _identifier (pdf_document bdoc_f3) + Z.of_nat (length (bpages bdoc_f3)) /\
    (forall i, i <= _identifier (pdf_document bdoc_f3) -> ~ In i (map pdf_page (bpages bdoc_f3)) ->
       reg_lookup (objects (pdf_document bd')) i = reg_lookup (objects (pdf_document bdoc_f3)) i) /\
    (forall k pg, nth_error (bpages bdoc_f3) k = Some pg ->
       let contents := _identifier (pdf_document bdoc_f3) + Z.of_nat k + 1 in
       reg_lookup (objects (pdf_document bd')) contents = Some (Stream (utf8 (canvas pg))) /\
       exists c es, reg_lookup (objects (pdf_document bdoc_f3)) (pdf_page pg) = Some (Dictionary c es) /\
         reg_lookup (objects (pdf_document bd')) (pdf_page pg) =
           Some (Dictionary c (od_set es "Contents" (Reference contents 0)))).
Proof.
  split; [exact reachable_bdoc_f3 | exact (backend_write_page_contents bdoc_f3 reachable_bdoc_f3)].
Defined.

End BackendWrite.

(** ** Page font aliases *)

Section Aliases.

Lemma read_digits_fuel (fuel : nat) : forall (n : N) (acc : string),
  (n < 10 ^ N.of_nat fuel)%N -> read_dec (digits_fuel fuel n acc) 0 = read_dec acc n.
Proof.
  induction fuel as [|f IH]; intros n acc Hn.
  - cbn in Hn. assert (n = 0%N) as -> by lia. reflexivity.
  - cbn [digits_fuel].
    assert (Hd : N_of_ascii (digit (n mod 10)) = (48 + n mod 10)%N).
    { unfold digit. apply N_ascii_embedding. pose proof (N.mod_lt n 10 ltac:(discriminate)). lia. }
    destruct (N.ltb_spec n 10).
    + cbn [read_dec]. rewrite Hd. f_equal. rewrite N.mod_small by lia. lia.
    + rewrite IH.
      * cbn [read_dec]. rewrite Hd. f_equal.
        rewrite (N.add_comm 48), N.add_sub, N.mul_comm. symmetry. apply N.div_mod. discriminate.
      * apply N.Div0.div_lt_upper_bound. rewrite Nat2N.inj_succ, N.pow_succ_r' in Hn. exact Hn.
Qed.

Lemma pos_lt_10_size (p : positive) : (N.pos p < 10 ^ N.of_nat (Pos.size_nat p))%N.
Proof.
  induction p as [p IH|p IH|]; cbn [Pos.size_nat]; rewrite ?Nat2N.inj_succ, ?N.pow_succ_r';
    [| |reflexivity];
  set (t := (10 ^ N.of_nat (Pos.size_nat p))%N) in *; lia.
Qed.

Lemma read_N_str (n : N) : read_dec (N_str n) 0 = n.
Proof.
  unfold N_str. rewrite read_digits_fuel; [reflexivity|].
  destruct n as [|p]; [reflexivity|].
  cbn [N.size_nat]. rewrite Nat2N.inj_succ, N.pow_succ_r'.
  pose proof (pos_lt_10_size p). lia.
Qed.

Lemma N_str_inj (m n : N) : N_str m = N_str n -> m = n.
Proof. intro H. rewrite <- (read_N_str m), <- (read_N_str n), H. reflexivity. Qed.

Lemma Z_str_inj_nonneg (m n : Z) : 0 <= m -> 0 <= n -> Z_str m = Z_str n -> m = n.
Proof.
  intros Hm Hn. unfold Z_str. destruct (Z.ltb_spec m 0); [lia|]. destruct (Z.ltb_spec n 0); [lia|].
  intro E. apply N_str_inj in E. lia.
Qed.

Lemma aliases_mono (bd bd' : bdoc) (pg : bpage) :
  (forall k r, assoc_get (fonts bd) k = Some r -> assoc_get (fonts bd') k = Some r) ->
  (forall n r, entry_agrees (pdf_document bd) (pdf_page pg) n r ->
               entry_agrees (pdf_document bd') (pdf_page pg) n r) ->
  aliases_ok bd pg -> aliases_ok bd' pg.
Proof.
  intros Hf He [H1 [H2 [H3 H4]]]. split; [exact H1|]. split; [exact H2|]. split; [exact H3|].
  eapply Forall_impl; [|exact H4]. intros e [r [Hr Ha]]. exists r. auto.
Qed.

Lemma vfe_od_set_other (c : dict_class) (es : list (string * pyobj)) (k n : string) (x : pyobj) :
  k <> "Resources" ->
  value_font_entry (Dictionary c (od_set es k x)) n = value_font_entry (Dictionary c es) n.
Proof.
  intro Hk. unfold value_font_entry. rewrite od_get_set_other; [reflexivity|].
  intro E. apply Hk. symmetry. exact E.
Qed.

Lemma entry_agrees_register (pd : document) (v : value) (h : Z) (n : string) (r : Z) :
  entry_agrees pd h n r -> entry_agrees (fst (register pd v)) h n r.
Proof.
  intros [w [Hw He]]. exists w. split; [|exact He]. apply reg_lookup_app_some. exact Hw.
Qed.

Lemma entry_agrees_modify (pd pd' : document) (i h : Z) (f : value -> result value) (n : string) (r : Z) :
  modify pd i f = Ok pd' ->
  (forall v v', f v = Ok v' -> value_font_entry v' n = value_font_entry v n) ->
  entry_agrees pd h n r -> entry_agrees pd' h n r.
Proof.
  intros Hm Hf [w [Hw He]].
  destruct (Z.eq_dec h i) as [->|Hne].
  - destruct (reg_lookup_modify_same _ _ _ _ Hm) as [v [v' [Hv [E Hv']]]].
    rewrite Hw in Hv. injection Hv as <-. exists v'. split; [exact Hv'|].
    rewrite (Hf _ _ E). exact He.
  - exists w. split; [rewrite (reg_lookup_modify_other _ _ _ _ _ Hm Hne); exact Hw | exact He].
Qed.

Lemma entry_agrees_setitem (pd pd' : document) (i h : Z) (k : string) (x : pyobj) (n : string) (r : Z) :
  setitem pd i k x = Ok pd' -> k <> "Resources" ->
  entry_agrees pd h n r -> entry_agrees pd' h n r.
Proof.
  intros Hs Hk. unfold setitem in Hs. apply (entry_agrees_modify _ _ _ _ _ _ _ Hs).
  intros [| | | | | |c es| |] v' E; try discriminate. injection E as <-.
  apply vfe_od_set_other. exact Hk.
Qed.

Lemma entry_agrees_kids (pd pd' : document) (i h p : Z) (n : string) (r : Z) :
  modify pd i (kids_append p) = Ok pd' -> entry_agrees pd h n r -> entry_agrees pd' h n r.
Proof.
  intro Hm. apply (entry_agrees_modify _ _ _ _ _ _ _ Hm).
  intros [| | | | | |c es| |] v' E; try discriminate. unfold kids_append in E.
  destruct (od_get es "Kids") as [[ri rg|a [| | | | |items| | |]]|]; try discriminate.
  injection E as <-. apply vfe_od_set_other. discriminate.
Qed.

Lemma entry_agrees_count (pd pd' : document) (i h : Z) (n : string) (r : Z) :
  modify pd i count_incr = Ok pd' -> entry_agrees pd h n r -> entry_agrees pd' h n r.
Proof.
  intro Hm. apply (entry_agrees_modify _ _ _ _ _ _ _ Hm).
  intros [| | | | | |c es| |] v' E; try discriminate. unfold count_incr in E.
  destruct (od_get es "Count") as [[ri rg|a [|m| | | | | | |]]|]; try discriminate.
  injection E as <-. apply vfe_od_set_other. discriminate.
Qed.

Lemma Forall_list_set {A : Type} (Q : A -> Prop) (l : list A) (p : nat) (y : A) :
  Q y -> (forall k x, k <> p -> nth_error l k = Some x -> Q x) -> Forall Q (list_set l p y).
Proof.
  revert p. induction l as [|z l IH]; intros [|p] Hy Hk; cbn [list_set]; try constructor.
  - exact Hy.
  - apply Forall_forall. intros x Hx. apply In_nth_error in Hx as [k Hk'].
    apply (Hk (S k)); [discriminate | exact Hk'].
  - apply (Hk 0%nat); [discriminate | reflexivity].
  - apply IH; [exact Hy|]. intros k x Hne E. apply (Hk (S k)); [congruence | exact E].
Qed.

Lemma Forall_nth {A : Type} (Q : A -> Prop) (l : list A) (k : nat) (x : A) :
  Forall Q l -> nth_error l k = Some x -> Q x.
Proof. intros H E. rewrite Forall_forall in H. apply H. apply nth_error_In with k. exact E. Qed.

Lemma NoDup_map_nth {A B : Type} (f : A -> B) (l : list A) (k p : nat) (x y : A) :
  NoDup (map f l) -> nth_error l k = Some x -> nth_error l p = Some y -> f x = f y -> k = p.
Proof.
  intros Hnd Hk Hp E. rewrite NoDup_nth_error in Hnd. apply Hnd.
  - rewrite length_map. apply nth_error_Some. congruence.
  - rewrite !nth_error_map, Hk, Hp. cbn. rewrite E. reflexivity.
Qed.

Lemma assoc_get_none_notin {A : Type} (l : list (nat * A)) (k : nat) :
  assoc_get l k = None -> ~ In k (map fst l).
Proof.
  induction l as [|[k' x] l IH]; cbn; [auto|].
  destruct (Nat.eqb_spec k k'); [discriminate|]. intros H [E|Hin]; [congruence | exact (IH H Hin)].
Qed.

Lemma register_font_fonts (bd bd' : bdoc) (f : font) (r : Z) :
  register_font bd f = Ok (bd', r) ->
  assoc_get (fonts bd') (font_key f) = Some r /\
  (forall k r', assoc_get (fonts bd) k = Some r' -> assoc_get (fonts bd') k = Some r') /\
  (forall h n r', entry_agrees (pdf_document bd) h n r' -> entry_agrees (pdf_document bd') h n r').
Proof.
  unfold register_font. destruct (assoc_get (fonts bd) (font_key f)) as [r0|] eqn:Ea.
  - intro H. injection H as <- <-. auto.
  - destruct (is_core f); [|discriminate].
    unfold Font_new. destruct (register (pdf_document bd) (Dictionary FontC [])) as [pd0 i] eqn:Er.
    cbv beta iota zeta.
    destruct (setitem pd0 i "Type" _) as [pd1|e] eqn:E1; [|discriminate]. cbn [bind].
    destruct (setitem pd1 i "Subtype" _) as [pd2|e] eqn:E2; [|discriminate]. cbn [bind].
    destruct (setitem pd2 i "BaseFont" _) as [pd3|e] eqn:E3; [|discriminate]. cbn [bind].
    intro H. injection H as <- <-. cbn [fonts pdf_document].
    split; [rewrite assoc_get_app_none, Nat.eqb_refl; [reflexivity | exact Ea]|].
    split; [intros k r' Hk; apply assoc_get_app_some; exact Hk|].
    intros h n r' Hag.
    assert (H0 : entry_agrees pd0 h n r').
    { replace pd0 with (fst (register (pdf_document bd) (Dictionary FontC []))) by (rewrite Er; reflexivity).
      apply entry_agrees_register. exact Hag. }
    apply (entry_agrees_setitem _ _ _ _ _ _ _ _ E3 ltac:(discriminate)).
    apply (entry_agrees_setitem _ _ _ _ _ _ _ _ E2 ltac:(discriminate)).
    apply (entry_agrees_setitem _ _ _ _ _ _ _ _ E1 ltac:(discriminate)).
    exact H0.
Qed.

Lemma alias_name_neq (j n : nat) : (1 <= j <= n)%nat ->
  alias_name j <> "F" ++ Z_str (Z.of_nat n + 1).
Proof.
  intros Hj E. unfold alias_name in E. injection E as E.
  apply Z_str_inj_nonneg in E; lia.
Qed.

Lemma aliases_bpage_new (bd bd' : bdoc) (w h : string) (p : nat) :
  bdoc_inv bd -> Forall (aliases_ok bd) (bpages bd) ->
  bpage_new bd w h = Ok (bd', p) -> Forall (aliases_ok bd') (bpages bd').
Proof.
  intros [[Hids _] _] Hal H. unfold bpage_new in H.
  destruct (new_page (pdf_document bd) (pages (pdf_document bd)) w h) as [[pd1 q]|e] eqn:En;
    [|discriminate].
  cbn [bind] in H. injection H as <- _. cbn [bpages].
  unfold new_page in En. rewrite Page_new_register in En by exact Hids. cbn [bind] in En.
  destruct (modify _ (pages (pdf_document bd)) (kids_append _)) as [pd2|e] eqn:E1; [|discriminate].
  cbn [bind] in En.
  destruct (modify pd2 (pages (pdf_document bd)) count_incr) as [pd3|e] eqn:E2; [|discriminate].
  cbn [bind] in En. injection En as <- <-.
  apply Forall_app. split.
  - eapply Forall_impl; [|exact Hal]. intros pg. apply aliases_mono; [cbn [fonts]; auto|].
    intros n r Hag. cbn [pdf_document].
    apply (entry_agrees_count _ _ _ _ _ _ E2). apply (entry_agrees_kids _ _ _ _ _ _ _ E1).
    apply entry_agrees_register. exact Hag.
  - constructor; [|constructor]. split; [reflexivity|]. split; [reflexivity|].
    split; constructor.
Qed.

Lemma aliases_register_font (bd bd' : bdoc) (f : font) (r : Z) :
  Forall (aliases_ok bd) (bpages bd) -> register_font bd f = Ok (bd', r) ->
  Forall (aliases_ok bd') (bpages bd').
Proof.
  intros Hal H. destruct (register_font_fonts bd bd' f r H) as [_ [Hf He]].
  assert (Hp : bpages bd' = bpages bd).
  { unfold register_font in H. destruct (assoc_get (fonts bd) (font_key f)).
    - injection H as <- _. reflexivity.
    - destruct (is_core f); [|discriminate]. unfold Font_new in H.
      destruct (register (pdf_document bd) (Dictionary FontC [])) as [pd0 i]. cbv beta iota zeta in H.
      destruct (setitem pd0 i "Type" _); [|discriminate]. cbn [bind] in H.
      destruct (setitem _ i "Subtype" _); [|discriminate]. cbn [bind] in H.
      destruct (setitem _ i "BaseFont" _); [|discriminate]. cbn [bind] in H.
      injection H as <- _. reflexivity. }
  rewrite Hp. eapply Forall_impl; [|exact Hal]. intro pg. apply aliases_mono; [exact Hf|].
  intros n r'. apply He.
Qed.

Lemma aliases_page_register_font (bd bd' : bdoc) (p : nat) (f : font) (name : string) :
  bdoc_inv bd -> Forall (aliases_ok bd) (bpages bd) ->
  page_register_font bd p f = Ok (bd', name) -> Forall (aliases_ok bd') (bpages bd').
Proof.
  intros Hbd Hal H. unfold page_register_font in H.
  destruct (nth_error (bpages bd) p) as [pg|] eqn:Ep; [|discriminate].
  destruct (assoc_get (font_names pg) (font_key f)) as [n|] eqn:Ean; [injection H as <- _; exact Hal|].
  destruct (register_font bd f) as [[bd1 r]|e] eqn:Ef; [|discriminate].
  cbn [bind] in H.
  destruct (register_font_inv bd bd1 f r Hbd Ef) as [[Hinv1 Hnd1] Hpg1].
  pose proof (aliases_register_font bd bd1 f r Hal Ef) as Hal1.
  destruct (register_font_fonts bd bd1 f r Ef) as [Hr1 [Hf1 He1]].
  destruct (modify (pdf_document bd1) (pdf_page pg) _) as [pd|e] eqn:Em; [|discriminate].
  cbn [bind] in H. injection H as <- _. cbn [bpages].
  rewrite Hpg1 in *.
  set (nm := "F" ++ Z_str (font_number pg)).
  set (pg' := mk_bpage (pdf_page pg) (canvas pg) (font_number pg + 1) (font_names pg ++ [(font_key f, nm)])).
  assert (Hother : forall h n' r', h <> pdf_page pg -> entry_agrees (pdf_document bd1) h n' r' ->
                     entry_agrees pd h n' r').
  { intros h n' r' Hne [w [Hw Hw']]. exists w. split; [|exact Hw'].
    rewrite (reg_lookup_modify_other _ _ _ _ _ Em Hne). exact Hw. }
  apply Forall_list_set.
  - (* the page that gets the new alias *)
    pose proof (Forall_nth _ _ _ _ Hal1 Ep) as [A1 [A2 [A3 A4]]].
    destruct Hinv1 as [_ [_ [_ Hpk]]].
    pose proof (Forall_nth _ _ _ _ (proj1 (Forall_map _ _ _) Hpk) Ep) as [v [Hv Hs]].
    destruct (resources_add_font_ok nm r v Hs) as [v' [Ea [_ [Hnew Hold]]]].
    pose proof (eq_trans (eq_sym Em) (modify_ok _ _ _ _ _ Hv Ea)) as Em'. injection Em' as ->.
    assert (Hv' : reg_lookup (objects (set_objects (pdf_document bd1)
                   (reg_replace (objects (pdf_document bd1)) (pdf_page pg) v'))) (pdf_page pg) = Some v').
    { unfold set_objects; cbn [objects]. rewrite reg_lookup_replace, Z.eqb_refl, Hv. reflexivity. }
    set (L := length (font_names pg)) in *.
    split; [cbn [font_number font_names]; rewrite length_app; cbn [length]; lia|].
    split.
    { cbn [font_names]. rewrite length_app, map_app, A2. cbn [length map snd].
      rewrite Nat.add_1_r, seq_S, map_app. cbn [map]. f_equal. f_equal.
      unfold nm, alias_name. rewrite A1. cbn [append]. do 2 f_equal. unfold L. lia. }
    split.
    { cbn [font_names]. rewrite map_app. apply NoDup_app; [exact A3 | constructor; [intros [] | constructor]|].
      intros x Hx [<-|[]]. exact (assoc_get_none_notin _ _ Ean Hx). }
    cbn [font_names pdf_page fonts pdf_document]. apply Forall_app. split.
    + apply Forall_forall. intros e Hin.
      pose proof (proj1 (Forall_forall _ _) A4 e Hin) as [re [Hre [w [Hw Hwe]]]].
      exists re. split; [exact Hre|].
      rewrite Hv in Hw. injection Hw as <-.
      exists v'. split; [exact Hv'|]. rewrite Hold; [exact Hwe|].
      assert (Hsn : In (snd e) (map alias_name (seq 1 L))) by (rewrite <- A2; apply in_map; exact Hin).
      apply in_map_iff in Hsn as [j [Ej Hj]]. apply in_seq in Hj.
      rewrite <- Ej. unfold nm. rewrite A1. apply alias_name_neq. lia.
    + constructor; [|constructor]. exists r. split; [exact Hr1|].
      exists v'. split; [exact Hv' | exact Hnew].
  - intros k x Hk Ex.
    assert (Hxp : pdf_page x <> pdf_page pg).
    { intro E. apply Hk. exact (NoDup_map_nth _ _ _ _ _ _ Hnd1 Ex Ep E). }
    pose proof (Forall_nth _ _ _ _ Hal1 Ex) as Hx.
    revert Hx. apply aliases_mono; [cbn [fonts]; auto|].
    intros n' r'. cbn [pdf_document]. apply Hother. exact Hxp.
Qed.

Lemma aliases_draw (bd : bdoc) (p : nat) (pg : bpage) (s : string) :
  Forall (aliases_ok bd) (bpages bd) -> nth_error (bpages bd) p = Some pg ->
  Forall (aliases_ok (mk_bdoc (pdf_document bd)
                        (list_set (bpages bd) p (mk_bpage (pdf_page pg) s (font_number pg) (font_names pg)))
                        (fonts bd)))
         (list_set (bpages bd) p (mk_bpage (pdf_page pg) s (font_number pg) (font_names pg))).
Proof.
  intros Hal Ep. apply Forall_list_set.
  - exact (Forall_nth _ _ _ _ Hal Ep).
  - intros k x _ Ex. exact (Forall_nth _ _ _ _ Hal Ex).
Qed.

(** X15: on every reachable backend document, the font aliases of each
    page are F1, ..., Fn in the order the fonts were registered, one per
    font, [font_number] is n + 1, and the page's [Resources]/[Font] entry
    for each alias is a reference to the [Font] object the document holds
    for that font. *)

Theorem page_aliases_consistent (bd : bdoc) (H : reachable_bdoc bd) :
  Forall (aliases_ok bd) (bpages bd).
Proof.
  assert (G : bdoc_inv bd /\ Forall (aliases_ok bd) (bpages bd)).
  { induction H as [bd H | bd bd' w h p _ [IH1 IH2] H | bd bd' f r _ [IH1 IH2] H
                   | bd bd' p f name _ [IH1 IH2] H | bd p pg s _ [IH1 IH2] H].
    - split; [exact (bdoc_inv_init bd H)|].
      unfold bdoc_init in H. rewrite doc0_eq in H. injection H as <-. constructor.
    - split; [exact (bpage_new_inv bd bd' w h p IH1 H) | exact (aliases_bpage_new bd bd' w h p IH1 IH2 H)].
    - split; [exact (proj1 (register_font_inv bd bd' f r IH1 H)) | exact (aliases_register_font bd bd' f r IH2 H)].
    - split; [exact (page_register_font_inv bd bd' p f name IH1 H)
             | exact (aliases_page_register_font bd bd' p f name IH1 IH2 H)].
    - split.
      + unfold bdoc_inv. cbn [pdf_document bpages].
        rewrite (map_pdf_page_list_set (bpages bd) p pg) by (exact H || reflexivity). exact IH1.
      + exact (aliases_draw bd p pg s IH2 H). }
  exact (proj2 G).
Qed.

Lemma page_aliases_consistent_witness :
  reachable_bdoc bdoc_f3 /\ Forall (aliases_ok bdoc_f3) (bpages bdoc_f3).
Proof.
  split; [exact reachable_bdoc_f3 | exact (page_aliases_consistent bdoc_f3 reachable_bdoc_f3)].
Defined.

End Aliases.

(** ** The Pages node *)

Section PagesBytes.



(** X16: in every reachable document the Pages node holds exactly the
    entries [Type], [Count] and [Kids], with [Count] the number of kids, and
    is written as [<< /Type /Pages /Count n /Kids [p1 0 R ... pn 0 R] >>]
    between its [obj] and [endobj] lines. *)



End PagesBytes.

